(** * S3/Progress.py: progress trackers and batch statistics

    A shallow embedding of [S3/Progress.py] (classes [Progress],
    [ProgressANSI], [ProgressCR] and [StatsInfo]) and the properties of
    its specification.

    Conventions of the embedding:
    - Python integers are [Z]; [//] is [Z.div] guarded by a
      [ZeroDivisionError] check (both round towards minus infinity).
    - [datetime.datetime.now()] is a number of microseconds ([Z]), the
      resolution of [datetime]; a [timedelta] is its normalised triple.
    - Floats ([time.time()], [sec_elapsed], transfer rates) are exact
      rationals [Q]: rounding is abstracted, comparisons with [0] and [1]
      and the division-by-zero test are the ones of the source.
    - A method is a computation over the receiver and the process state
      (the text written to [sys.stdout], the clock, the class attribute
      [Progress._last_display]); an exception leaves the mutations made
      before it in place, as in Python. *)

From Stdlib Require Import ZArith QArith String Ascii List DecimalString Lia.
From Stdlib Require Import Sorted Lqa.
From stdpp Require Import base gmap strings.

Local Open Scope Z_scope.

(** ** Python runtime fragments *)

Inductive exn : Type :=
| ZeroDivisionError
| TypeError
| KeyError
| AttributeError.

Inductive outcome (A : Type) : Type :=
| Returned (a : A)
| Raised (e : exn).
Arguments Returned {A} a.
Arguments Raised {A} e.

(** A positional argument of a call, as far as this module passes any. *)
Inductive pyval : Type :=
| PStr (s : string)
| PInt (z : Z).

Definition nl : string := String "010"%char EmptyString.
Definition CR_char : string := String "013"%char EmptyString.
Definition SCI : string := String "027"%char "[".
Definition ANSI_save_cursor_pos : string := SCI +:+ "s".
Definition ANSI_restore_cursor_pos : string := SCI +:+ "u".
Definition ANSI_erase_to_eol : string := SCI +:+ "0K".

(** [str(n)] and ["%d" % n] for an integer [n]. *)
Definition str (n : Z) : string := NilZero.string_of_int (Z.to_int n).

Fixpoint spaces (n : nat) : string :=
  match n with
  | O => EmptyString
  | S k => String " "%char (spaces k)
  end.

(** [s.rjust(width)], also the padding of ["%<width>d"]. *)
Definition rjust (width : nat) (s : string) : string :=
  spaces (width - String.length s) +:+ s.

(** ["%d" % x] for a float [x]: truncation towards zero. *)
Definition trunc (x : Q) : Z := Z.quot (Qnum x) (Z.pos (Qden x)).

(** Truth value of an optional string ([None] and [""] are false). *)
Definition truthy (m : option string) : bool :=
  match m with
  | None => false
  | Some EmptyString => false
  | Some (String _ _) => true
  end.

(** Truth value of an optional integer ([None] and [0] are false). *)
Definition truthy_int (n : option Z) : bool :=
  match n with
  | None => false
  | Some z => negb (z =? 0)
  end.

Definition Qgtb (x y : Q) : bool := negb (Qle_bool x y).

(** ** Time *)

Record timedelta : Type := {
  days : Z;
  seconds : Z;
  microseconds : Z
}.

(** [a - b] on two [datetime] values given in microseconds. *)
Definition datetime_sub (a b : Z) : timedelta :=
  let d := a - b in
  {| days := d / 86400000000;
     seconds := (d mod 86400000000) / 1000000;
     microseconds := d mod 1000000 |}.

(** [timedelta.days * 86400 + timedelta.seconds
     + float(timedelta.microseconds) / 1000000.0] *)
Definition sec_elapsed_of (td : timedelta) : Q :=
  (inject_Z (days td * 86400 + seconds td) + Qmake (microseconds td) 1000000)%Q.

(** ** Objects and process state *)

Inductive variant : Type :=
| Plain   (* class Progress *)
| ANSI    (* class ProgressANSI *)
| CR.     (* class ProgressCR *)

(** An instance of [Progress] or of one of its subclasses.  The two
    attributes that [new_file] does not always set are optional:
    [last_milestone] is assigned only by [Progress.display], and
    [_last_display] exists on the instance only once [_display_needed]
    has stored into it; until then a read falls back on the class. *)
Record Progress : Type := {
  klass : variant;
  labels : gmap string string;
  total_size : Z;
  initial_position : Z;
  current_position : Z;
  time_start : Z;
  time_last : Z;
  time_current : Z;
  last_milestone : option Z;
  _last_display : option Q
}.

Definition set_labels (v : gmap string string) (o : Progress) : Progress :=
  {| klass := klass o; labels := v; total_size := total_size o;
     initial_position := initial_position o;
     current_position := current_position o; time_start := time_start o;
     time_last := time_last o; time_current := time_current o;
     last_milestone := last_milestone o; _last_display := _last_display o |}.

Definition set_total_size (v : Z) (o : Progress) : Progress :=
  {| klass := klass o; labels := labels o; total_size := v;
     initial_position := initial_position o;
     current_position := current_position o; time_start := time_start o;
     time_last := time_last o; time_current := time_current o;
     last_milestone := last_milestone o; _last_display := _last_display o |}.

Definition set_initial_position (v : Z) (o : Progress) : Progress :=
  {| klass := klass o; labels := labels o; total_size := total_size o;
     initial_position := v;
     current_position := current_position o; time_start := time_start o;
     time_last := time_last o; time_current := time_current o;
     last_milestone := last_milestone o; _last_display := _last_display o |}.

Definition set_current_position (v : Z) (o : Progress) : Progress :=
  {| klass := klass o; labels := labels o; total_size := total_size o;
     initial_position := initial_position o;
     current_position := v; time_start := time_start o;
     time_last := time_last o; time_current := time_current o;
     last_milestone := last_milestone o; _last_display := _last_display o |}.

Definition set_time_start (v : Z) (o : Progress) : Progress :=
  {| klass := klass o; labels := labels o; total_size := total_size o;
     initial_position := initial_position o;
     current_position := current_position o; time_start := v;
     time_last := time_last o; time_current := time_current o;
     last_milestone := last_milestone o; _last_display := _last_display o |}.

Definition set_time_last (v : Z) (o : Progress) : Progress :=
  {| klass := klass o; labels := labels o; total_size := total_size o;
     initial_position := initial_position o;
     current_position := current_position o; time_start := time_start o;
     time_last := v; time_current := time_current o;
     last_milestone := last_milestone o; _last_display := _last_display o |}.

Definition set_time_current (v : Z) (o : Progress) : Progress :=
  {| klass := klass o; labels := labels o; total_size := total_size o;
     initial_position := initial_position o;
     current_position := current_position o; time_start := time_start o;
     time_last := time_last o; time_current := v;
     last_milestone := last_milestone o; _last_display := _last_display o |}.

Definition set_last_milestone (v : Z) (o : Progress) : Progress :=
  {| klass := klass o; labels := labels o; total_size := total_size o;
     initial_position := initial_position o;
     current_position := current_position o; time_start := time_start o;
     time_last := time_last o; time_current := time_current o;
     last_milestone := Some v; _last_display := _last_display o |}.

Definition set__last_display (v : Q) (o : Progress) : Progress :=
  {| klass := klass o; labels := labels o; total_size := total_size o;
     initial_position := initial_position o;
     current_position := current_position o; time_start := time_start o;
     time_last := time_last o; time_current := time_current o;
     last_milestone := last_milestone o; _last_display := Some v |}.

(** What the methods of this module can see of the process:
    - [sys_stdout]: the chunks written to [sys.stdout], oldest first;
    - [instant]: the position on the time line; every reading of the
      clock moves it on by one, and so does [sleep];
    - [Progress__last_display]: the class attribute
      [Progress._last_display], shared by every instance of every
      subclass. *)
Record World : Type := {
  sys_stdout : list string;
  instant : nat;
  Progress__last_display : Q
}.

Definition initial_world : World :=
  {| sys_stdout := []; instant := 0%nat; Progress__last_display := 0%Q |}.

Definition tick (w : World) : World :=
  {| sys_stdout := sys_stdout w; instant := S (instant w);
     Progress__last_display := Progress__last_display w |}.

Definition emit (s : string) (w : World) : World :=
  {| sys_stdout := sys_stdout w ++ [s]; instant := instant w;
     Progress__last_display := Progress__last_display w |}.

(** ** The monad of methods: state with exceptions *)

Definition state : Type := Progress * World.

Definition M (A : Type) : Type := state -> outcome A * state.

Definition ret {A} (a : A) : M A := fun st => (Returned a, st).

Definition raise {A} (e : exn) : M A := fun st => (Raised e, st).

Definition bind {A B} (m : M A) (k : A -> M B) : M B :=
  fun st =>
    match m st with
    | (Returned a, st') => k a st'
    | (Raised e, st') => (Raised e, st')
    end.

Notation "x <- m ;; k" := (bind m (fun x => k))
  (at level 100, m at next level, right associativity).
Notation "m ;;; k" := (bind m (fun _ => k))
  (at level 100, right associativity).

Definition get_self : M Progress := fun st => (Returned (fst st), st).

Definition setattr (f : Progress -> Progress) : M unit :=
  fun st => (Returned tt, (f (fst st), snd st)).

Definition get_world : M World := fun st => (Returned (snd st), st).

Definition set_world (f : World -> World) : M unit :=
  fun st => (Returned tt, (fst st, f (snd st))).

(** [a // b] on integers. *)
Definition floordiv (a b : Z) : M Z :=
  if b =? 0 then raise ZeroDivisionError else ret (a / b).

(** [a / b] with a float divisor (true division). *)
Definition truediv (a b : Q) : M Q :=
  if Qeq_bool b 0 then raise ZeroDivisionError else ret (a / b)%Q.

(** [d[key]] on a dictionary. *)
Definition getitem (d : gmap string string) (key : string) : M string :=
  match d !! key with
  | Some v => ret v
  | None => raise KeyError
  end.

(** [sys.stdout.write] applied to positional arguments: the [write] of
    a file object takes exactly one argument, a string. *)
Definition stdout_write (args : list pyval) : M unit :=
  match args with
  | [PStr s] => set_world (emit s)
  | _ => raise TypeError
  end.

Definition stdout_flush : M unit := ret tt.

(** ** External collaborators *)

(** What the module takes from its environment.  [formatSize] is
    [S3.Utils.formatSize(size, human_readable, floating_point)], whose
    third argument is optional; it returns a number and a unit prefix.
    [str_number] is ["%s" % x] and [fmt_f w p] is ["%<w>.<p>f" % x] on
    such numbers; the three are taken to return normally on every
    argument.  [wall_time n] and [wall_datetime n] are what [time.time()]
    and [datetime.datetime.now()] (in microseconds) return when the
    clock is read at instant [n]. *)
Class Host : Type := {
  formatSize : Q -> bool -> option bool -> Q * string;
  str_number : Q -> string;
  fmt_f : nat -> nat -> Q -> string;
  wall_time : nat -> Q;
  wall_datetime : nat -> Z
}.

(** ** The tracker classes *)

Section Tracker.

Context {host : Host}.

Definition time_time : M Q :=
  w <- get_world ;;
  set_world tick ;;;
  ret (wall_time (instant w)).

Definition datetime_now : M Z :=
  w <- get_world ;;
  set_world tick ;;;
  ret (wall_datetime (instant w)).

(** Time passing between two calls. *)
Definition sleep : M unit := set_world tick.

(** [self._last_display]: the instance attribute when there is one,
    the class attribute otherwise. *)
Definition getattr__last_display : M Q :=
  self <- get_self ;;
  w <- get_world ;;
  ret (match _last_display self with
       | Some t => t
       | None => Progress__last_display w
       end).

(** [self.last_milestone] *)
Definition getattr_last_milestone : M Z :=
  self <- get_self ;;
  match last_milestone self with
  | Some m => ret m
  | None => raise AttributeError
  end.

Definition output_labels : M unit :=
  self <- get_self ;;
  action <- getitem (labels self) "action" ;;
  source <- getitem (labels self) "source" ;;
  destination <- getitem (labels self) "destination" ;;
  extra <- getitem (labels self) "extra" ;;
  stdout_write [PStr (action +:+ ": '" +:+ source +:+ "' -> '"
                      +:+ destination +:+ "'  " +:+ extra +:+ nl)] ;;;
  stdout_flush.

Definition _display_needed : M bool :=
  now <- time_time ;;
  last <- getattr__last_display ;;
  if Qgtb (now - last) 1 then
    now' <- time_time ;;
    setattr (set__last_display now') ;;;
    ret true
  else
    ret false.

(** [Progress.display] *)
Definition Progress_display (new_file : bool) (done_message : option string)
  : M unit :=
  if new_file then
    output_labels ;;;
    setattr (set_last_milestone 0)
  else
    self <- get_self ;;
    if current_position self =? total_size self then
      let print_size :=
        formatSize (inject_Z (current_position self)) true None in
      let print_size :=
        if String.eqb (snd print_size) "" then print_size
        else (fst print_size, snd print_size +:+ "B") in
      let timedelta := datetime_sub (time_current self) (time_start self) in
      let sec_elapsed := sec_elapsed_of timedelta in
      rate <- truediv
                (inject_Z (current_position self - initial_position self))
                sec_elapsed ;;
      let print_speed := formatSize rate true (Some true) in
      stdout_write
        [PStr ("100%  " +:+ str_number (fst print_size) +:+ snd print_size
               +:+ " in " +:+ fmt_f 0 2 sec_elapsed +:+ "s ("
               +:+ fmt_f 0 2 (fst print_speed) +:+ " " +:+ snd print_speed
               +:+ "B/s)" +:+ nl)] ;;;
      stdout_flush
    else
      rel_position <-
        floordiv (current_position self * 100) (total_size self) ;;
      milestone <- getattr_last_milestone ;;
      if rel_position >=? milestone then
        setattr (set_last_milestone (rel_position / 5 * 5)) ;;;
        milestone' <- getattr_last_milestone ;;
        stdout_write [PStr "%d%% "; PInt milestone'] ;;;
        stdout_flush
      else
        ret tt.

(** [not (new_file or done_message) and not self._display_needed()] *)
Definition suppressed (new_file : bool) (done_message : option string)
  : M bool :=
  if negb (new_file || truthy done_message) then
    needed <- _display_needed ;;
    ret (negb needed)
  else
    ret false.

(** The [print_speed] of [ProgressANSI.display] and
    [ProgressCR.display]. *)
Definition print_speed_of (self : Progress) (sec_elapsed : Q)
  : M (Q * string) :=
  if Qgtb sec_elapsed 0 then
    rate <- truediv
              (inject_Z (current_position self - initial_position self))
              sec_elapsed ;;
    ret (formatSize rate true (Some true))
  else
    ret (0%Q, EmptyString).

(** [self.total_size and ((self.current_position * 100)
     // self.total_size) or 0] *)
Definition percent_of (self : Progress) : M Z :=
  if total_size self =? 0 then
    ret 0
  else
    p <- floordiv (current_position self * 100) (total_size self) ;;
    ret (if p =? 0 then 0 else p).

(** ["  %s\n" % done_message] *)
Definition done_suffix (done_message : option string) : string :=
  match done_message with
  | Some m => "  " +:+ m +:+ nl
  | None => "  None" +:+ nl
  end.

Definition ANSI_status (self : Progress) (percent : Z) (sec_elapsed : Q)
    (print_speed : Q * string) : string :=
  rjust (String.length (str (total_size self))) (str (current_position self))
  +:+ " of " +:+ str (total_size self) +:+ "   "
  +:+ rjust 3 (str percent) +:+ "% in " +:+ str (trunc sec_elapsed) +:+ "s  "
  +:+ fmt_f 0 2 (fst print_speed) +:+ " " +:+ snd print_speed +:+ "B/s".

Definition CR_status (self : Progress) (percent : Z) (sec_elapsed : Q)
    (print_speed : Q * string) : string :=
  " "
  +:+ rjust (String.length (str (total_size self))) (str (current_position self))
  +:+ " of " +:+ str (total_size self) +:+ "   "
  +:+ rjust 3 (str percent) +:+ "% in "
  +:+ rjust 4 (str (trunc sec_elapsed)) +:+ "s  "
  +:+ fmt_f 7 2 (fst print_speed) +:+ " " +:+ snd print_speed +:+ "B/s".

(** [ProgressANSI.display] *)
Definition ProgressANSI_display (new_file : bool)
    (done_message : option string) : M unit :=
  if new_file then
    output_labels ;;;
    stdout_write [PStr ANSI_save_cursor_pos] ;;;
    stdout_flush
  else
    skip <- suppressed new_file done_message ;;
    if skip then ret tt
    else
      self <- get_self ;;
      let timedelta := datetime_sub (time_current self) (time_start self) in
      let sec_elapsed := sec_elapsed_of timedelta in
      print_speed <- print_speed_of self sec_elapsed ;;
      stdout_write [PStr ANSI_restore_cursor_pos] ;;;
      stdout_write [PStr ANSI_erase_to_eol] ;;;
      percent <- percent_of self ;;
      stdout_write [PStr (ANSI_status self percent sec_elapsed print_speed)] ;;;
      (if truthy done_message
       then stdout_write [PStr (done_suffix done_message)]
       else ret tt) ;;;
      stdout_flush.

(** [ProgressCR.display] *)
Definition ProgressCR_display (new_file : bool)
    (done_message : option string) : M unit :=
  if new_file then
    output_labels
  else
    skip <- suppressed new_file done_message ;;
    if skip then ret tt
    else
      self <- get_self ;;
      let timedelta := datetime_sub (time_current self) (time_start self) in
      let sec_elapsed := sec_elapsed_of timedelta in
      print_speed <- print_speed_of self sec_elapsed ;;
      stdout_write [PStr CR_char] ;;;
      percent <- percent_of self ;;
      let output := CR_status self percent sec_elapsed print_speed in
      stdout_write [PStr output] ;;;
      (if truthy done_message
       then stdout_write [PStr (done_suffix done_message)]
       else ret tt) ;;;
      stdout_flush.

(** [self.display(...)]: dispatch on the class of the receiver. *)
Definition display (new_file : bool) (done_message : option string)
  : M unit :=
  self <- get_self ;;
  match klass self with
  | Plain => Progress_display new_file done_message
  | ANSI => ProgressANSI_display new_file done_message
  | CR => ProgressCR_display new_file done_message
  end.

Definition new_file (lbls : gmap string string) (total : Z) : M unit :=
  setattr (set_labels lbls) ;;;
  setattr (set_total_size total) ;;;
  setattr (set_initial_position 0) ;;;
  self <- get_self ;;
  setattr (set_current_position (initial_position self)) ;;;
  now <- datetime_now ;;
  setattr (set_time_start now) ;;;
  self <- get_self ;;
  setattr (set_time_last (time_start self)) ;;;
  setattr (set_time_current (time_start self)) ;;;
  display true None.

Definition update (position delta_position : Z) : M unit :=
  self <- get_self ;;
  setattr (set_time_last (time_current self)) ;;;
  now <- datetime_now ;;
  setattr (set_time_current now) ;;;
  (if position >? -1 then
     setattr (set_current_position position)
   else if delta_position >? -1 then
     self <- get_self ;;
     setattr (set_current_position (current_position self + delta_position))
   else
     ret tt) ;;;
  display false None.

Definition done (message : string) : M unit :=
  display false (Some message).

(** The object [__init__] starts from: no attribute is set yet (the
    numeric fields are placeholders that [new_file] overwrites). *)
Definition blank (k : variant) : Progress :=
  {| klass := k; labels := ∅; total_size := 0; initial_position := 0;
     current_position := 0; time_start := 0; time_last := 0;
     time_current := 0; last_milestone := None; _last_display := None |}.

(** [k(labels, total_size)]: construction of a tracker of class [k]. *)
Definition Progress_init (k : variant) (lbls : gmap string string)
    (total : Z) (w : World) : outcome unit * state :=
  new_file lbls total (blank k, w).

(** What a caller can do with a tracker between two observations. *)
Inductive call : Type :=
| CallNewFile (lbls : gmap string string) (total : Z)
| CallUpdate (position delta_position : Z)
| CallDone (message : string)
| CallDisplay (new_file : bool) (done_message : option string)
| Sleep.

Definition perform (c : call) : M unit :=
  match c with
  | CallNewFile lbls total => new_file lbls total
  | CallUpdate position delta_position => update position delta_position
  | CallDone message => done message
  | CallDisplay nf dm => display nf dm
  | Sleep => sleep
  end.

(** The state a call leaves behind, whether it returned or raised. *)
Definition after (c : call) (st : state) : state := snd (perform c st).

Definition run (cs : list call) (st : state) : state :=
  fold_left (fun st c => after c st) cs st.

(** The chunks a step wrote: what [sys.stdout] holds in [st'] beyond
    what it held in [st]. *)
Definition written (st st' : state) : list string :=
  drop (length (sys_stdout (snd st))) (sys_stdout (snd st')).

Definition rendered (st st' : state) : bool :=
  negb (Nat.eqb (length (written st st')) 0).

(** The states a caller observes after each call of a sequence. *)
Fixpoint trace (cs : list call) (st : state) : list state :=
  match cs with
  | [] => []
  | c :: cs' => after c st :: trace cs' (after c st)
  end.

Definition updates (args : list (Z * Z)) : list call :=
  map (fun a => CallUpdate (fst a) (snd a)) args.

(** *** What a status line shows, as the specification words it *)

Definition elapsed (self : Progress) : Q :=
  sec_elapsed_of (datetime_sub (time_current self) (time_start self)).

(** Integer percent, 0 when the total is 0. *)
Definition shown_percent (self : Progress) : Z :=
  if total_size self =? 0 then 0
  else current_position self * 100 / total_size self.

(** Throughput, computed only when the elapsed time is positive. *)
Definition shown_speed (self : Progress) : Q * string :=
  if Qgtb (elapsed self) 0 then
    formatSize
      (inject_Z (current_position self - initial_position self) / elapsed self)%Q
      true (Some true)
  else (0%Q, EmptyString).

Definition status_chunks (self : Progress) : list string :=
  match klass self with
  | Plain => []
  | ANSI =>
      [ANSI_restore_cursor_pos; ANSI_erase_to_eol;
       ANSI_status self (shown_percent self) (elapsed self) (shown_speed self)]
  | CR =>
      [CR_char;
       CR_status self (shown_percent self) (elapsed self) (shown_speed self)]
  end.

Definition emits (chunks : list string) (w : World) : World :=
  fold_left (fun w s => emit s w) chunks w.

(** The position [update] stores, with [-1] for an argument that was
    not supplied. *)
Definition updated_position (position delta_position stored : Z) : Z :=
  if position >? -1 then position
  else if delta_position >? -1 then stored + delta_position
  else stored.

(** The value of [last_milestone] a caller reads off a tracker. *)
Definition milestone_of (st : state) : Z :=
  match last_milestone (fst st) with
  | Some m => m
  | None => 0
  end.

(** *** Properties that a method maintains, returning or raising *)

Definition preserves {A} (P : state -> Prop) (m : M A) : Prop :=
  forall st, P st -> P (snd (m st)).

(** [P] does not depend on the attribute that [f] assigns. *)
Definition ignores (P : state -> Prop) (f : Progress -> Progress) : Prop :=
  forall o w, P (o, w) -> P (f o, w).

(** [P] depends neither on the clock moving on nor on the output. *)
Definition world_stable (P : state -> Prop) : Prop :=
  (forall o w, P (o, w) -> P (o, tick w))
  /\ (forall o w s, P (o, w) -> P (o, emit s w)).

(** [P] does not depend on the attributes that [new_file] and [update]
    assign. *)
Definition transfer_stable (P : state -> Prop) : Prop :=
  (forall v, ignores P (set_labels v))
  /\ (forall v, ignores P (set_total_size v))
  /\ (forall v, ignores P (set_initial_position v))
  /\ (forall v, ignores P (set_current_position v))
  /\ (forall v, ignores P (set_time_start v))
  /\ (forall v, ignores P (set_time_last v))
  /\ (forall v, ignores P (set_time_current v)).

(** The attributes that describe the transfer: all but
    [last_milestone] and [_last_display]. *)
Definition transfer_of (o : Progress) :=
  (klass o, labels o, total_size o, initial_position o,
   current_position o, time_start o, time_last o, time_current o).

(** A milestone as the specification wants it: a multiple of 5 between
    0 and 100. *)
Definition milestone_ok (o : Progress) : Prop :=
  exists m, last_milestone o = Some m /\ (5 | m) /\ 0 <= m <= 100.

(** What a plain tracker of a transfer of [total] bytes satisfies from
    [new_file] on, as long as the position stays within the total. *)
Definition milestone_inv (total : Z) (st : state) : Prop :=
  klass (fst st) = Plain
  /\ total_size (fst st) = total
  /\ 0 <= current_position (fst st)
  /\ milestone_ok (fst st).

(** The instance has stored a reading of the clock taken at instant [n]
    or later, and the time line has not gone back before [n]. *)
Definition stamped_since (n : nat) (st : state) : Prop :=
  (n <= instant (snd st))%nat
  /\ exists k, (n <= k)%nat /\ _last_display (fst st) = Some (wall_time k).

(** The tracker [__init__] builds for class [k] at instant [n]. *)
Definition fresh (k : variant) (lbls : gmap string string) (total : Z)
    (n : nat) : Progress :=
  {| klass := k; labels := lbls; total_size := total; initial_position := 0;
     current_position := 0; time_start := wall_datetime n;
     time_last := wall_datetime n; time_current := wall_datetime n;
     last_milestone := match k with Plain => Some 0 | _ => None end;
     _last_display := None |}.

(** [self._last_display] as a value: the instance attribute when
    there is one, the class attribute otherwise. *)
Definition last_display_of (self : Progress) (w : World) : Q :=
  match _last_display self with
  | Some t => t
  | None => Progress__last_display w
  end.

(** *** Further vocabulary *)

(** The labels line, when the dictionary has the four keys. *)
Definition labels_line (lbls : gmap string string) : option string :=
  match lbls !! "action", lbls !! "source",
        lbls !! "destination", lbls !! "extra" with
  | Some action, Some source, Some destination, Some extra =>
      Some (action +:+ ": '" +:+ source +:+ "' -> '"
            +:+ destination +:+ "'  " +:+ extra +:+ nl)
  | _, _, _, _ => None
  end.

(** What a new-file announcement writes for a tracker of class [k]. *)
Definition announcement (k : variant) (line : string) : list string :=
  match k with
  | ANSI => [line; ANSI_save_cursor_pos]
  | _ => [line]
  end.

(** The tracker [self] once [new_file] has started a transfer of [total]
    bytes at time [now]. *)
Definition renewed (self : Progress) (lbls : gmap string string) (total : Z)
    (now : Z) : Progress :=
  {| klass := klass self; labels := lbls; total_size := total;
     initial_position := 0; current_position := 0; time_start := now;
     time_last := now; time_current := now;
     last_milestone := match klass self with
                       | Plain => Some 0
                       | _ => last_milestone self
                       end;
     _last_display := _last_display self |}.

(** The attributes [new_file] assigns before it announces the file. *)
Definition restarted (self : Progress) (lbls : gmap string string) (total : Z)
    (now : Z) : Progress :=
  {| klass := klass self; labels := lbls; total_size := total;
     initial_position := 0; current_position := 0; time_start := now;
     time_last := now; time_current := now;
     last_milestone := last_milestone self;
     _last_display := _last_display self |}.


(** The timestamps of a tracker are in order and not ahead of the clock. *)
Definition timestamps_ordered (st : state) : Prop :=
  time_start (fst st) <= time_last (fst st)
  /\ time_last (fst st) <= time_current (fst st)
  /\ time_current (fst st) <= wall_datetime (instant (snd st)).

(** The position a sequence of [update] arguments leaves. *)
Definition final_position (args : list (Z * Z)) (stored : Z) : Z :=
  fold_left (fun pos a => updated_position (fst a) (snd a) pos) args stored.

End Tracker.

(** ** Batch statistics: class [StatsInfo] *)

Module Stats.

Record StatsInfo : Type := {
  files : option Z;
  size : option Z;
  files_transferred : option Z;
  size_transferred : option Z;
  files_copied : option Z;
  size_copied : option Z;
  files_deleted : option Z;
  size_deleted : option Z
}.

(** [StatsInfo()] *)
Definition StatsInfo_init : StatsInfo :=
  {| files := None; size := None;
     files_transferred := None; size_transferred := None;
     files_copied := None; size_copied := None;
     files_deleted := None; size_deleted := None |}.

(** [StatsInfo.format_output] *)
Definition format_output (self : StatsInfo) : string :=
  let outstr := EmptyString in
  let outstr :=
    match files self with
    | Some n =>
        let tmp_str := "Number of files: " +:+ str n in
        let tmp_str :=
          match size self with
          | Some b => tmp_str +:+ (" (" +:+ str b +:+ " bytes) ")
          | None => tmp_str
          end in
        outstr +:+ ((nl +:+ "Stats: ") +:+ tmp_str)
    | None => outstr
    end in
  let outstr :=
    match files_transferred self with
    | Some n =>
        if n =? 0 then outstr
        else
          let tmp_str := "Number of files transferred: " +:+ str n in
          let tmp_str :=
            match size_transferred self with
            | Some b => tmp_str +:+ (" (" +:+ str b +:+ " bytes) ")
            | None => tmp_str
            end in
          outstr +:+ ((nl +:+ "Stats: ") +:+ tmp_str)
    | None => outstr
    end in
  let outstr :=
    match files_copied self with
    | Some n =>
        if n =? 0 then outstr
        else
          let tmp_str := "Number of files copied: " +:+ str n in
          let tmp_str :=
            match size_copied self with
            | Some b => tmp_str +:+ (" (" +:+ str b +:+ " bytes) ")
            | None => tmp_str
            end in
          outstr +:+ ((nl +:+ "Stats: ") +:+ tmp_str)
    | None => outstr
    end in
  let outstr :=
    match files_deleted self with
    | Some n =>
        if n =? 0 then outstr
        else
          let tmp_str := "Number of files deleted: " +:+ str n in
          let tmp_str :=
            match size_deleted self with
            | Some b => tmp_str +:+ (" (" +:+ str b +:+ " bytes) ")
            | None => tmp_str
            end in
          outstr +:+ ((nl +:+ "Stats: ") +:+ tmp_str)
    | None => outstr
    end in
  outstr.

(** *** The report as the specification words it *)

Inductive category : Type := Total | Transferred | Copied | Deleted.

Definition categories : list category := [Total; Transferred; Copied; Deleted].

Definition count_of (c : category) (s : StatsInfo) : option Z :=
  match c with
  | Total => files s
  | Transferred => files_transferred s
  | Copied => files_copied s
  | Deleted => files_deleted s
  end.

Definition size_of (c : category) (s : StatsInfo) : option Z :=
  match c with
  | Total => size s
  | Transferred => size_transferred s
  | Copied => size_copied s
  | Deleted => size_deleted s
  end.

(** The words after "Number of files" on the line of a category. *)
Definition wording (c : category) : string :=
  match c with
  | Total => ""
  | Transferred => " transferred"
  | Copied => " copied"
  | Deleted => " deleted"
  end.

(** A category is reported when its count is set and non-zero, the
    total as soon as its count is set. *)
Definition reported (s : StatsInfo) (c : category) : bool :=
  match c with
  | Total => match files s with Some _ => true | None => false end
  | _ => truthy_int (count_of c s)
  end.

Definition spec_line (s : StatsInfo) (c : category) : string :=
  (nl +:+ "Stats: ")
  +:+ ("Number of files" +:+ wording c +:+ ": "
       +:+ match count_of c s with Some n => str n | None => "" end
       +:+ match size_of c s with
           | Some b => " (" +:+ str b +:+ " bytes) "
           | None => ""
           end).

Definition spec_report (s : StatsInfo) : list string :=
  map (spec_line s) (List.filter (reported s) categories).

(** The statistics with both fields of a category absent. *)
Definition forget (c : category) (s : StatsInfo) : StatsInfo :=
  match c with
  | Total =>
      {| files := None; size := None;
         files_transferred := files_transferred s;
         size_transferred := size_transferred s;
         files_copied := files_copied s; size_copied := size_copied s;
         files_deleted := files_deleted s; size_deleted := size_deleted s |}
  | Transferred =>
      {| files := files s; size := size s;
         files_transferred := None; size_transferred := None;
         files_copied := files_copied s; size_copied := size_copied s;
         files_deleted := files_deleted s; size_deleted := size_deleted s |}
  | Copied =>
      {| files := files s; size := size s;
         files_transferred := files_transferred s;
         size_transferred := size_transferred s;
         files_copied := None; size_copied := None;
         files_deleted := files_deleted s; size_deleted := size_deleted s |}
  | Deleted =>
      {| files := files s; size := size s;
         files_transferred := files_transferred s;
         size_transferred := size_transferred s;
         files_copied := files_copied s; size_copied := size_copied s;
         files_deleted := None; size_deleted := None |}
  end.

End Stats.

(** ** Concrete collaborators for the examples *)

Definition example_labels : gmap string string :=
  <["action" := "upload"]> (<["source" := "a.bin"]>
  (<["destination" := "s3://bucket/a.bin"]> (<["extra" := "[1 of 1]"]> ∅))).

(** A host whose clock moves on by a quarter of a second per instant,
    starting 1000 seconds after the epoch, and whose formatter leaves the
    number as it is, without a unit prefix. *)
Definition example_host : Host :=
  {| formatSize := fun x _ _ => (x, EmptyString);
     str_number := fun x => str (trunc x);
     fmt_f := fun _ _ x => str (trunc x);
     wall_time := fun n => (1000 + (1 # 4) * inject_Z (Z.of_nat n))%Q;
     wall_datetime := fun n => 1000000000 + Z.of_nat n * 250000 |}.

(** The same host with a clock too coarse to tell two instants apart. *)
Definition coarse_host : Host :=
  {| formatSize := fun x _ _ => (x, EmptyString);
     str_number := fun x => str (trunc x);
     fmt_f := fun _ _ x => str (trunc x);
     wall_time := fun _ => 1000%Q;
     wall_datetime := fun _ => 1000000000 |}.

(** * Properties *)

(** ** Strings *)

Lemma append_assoc (a b c : string) : (a +:+ b) +:+ c = a +:+ (b +:+ c).
Proof.
  induction a as [|ch a IH]; [reflexivity|].
  change (String ch ((a +:+ b) +:+ c) = String ch (a +:+ (b +:+ c))).
  now rewrite IH.
Qed.

Lemma append_nil_r (a : string) : a +:+ EmptyString = a.
Proof.
  induction a as [|ch a IH]; [reflexivity|].
  change (String ch (a +:+ EmptyString) = String ch a).
  now rewrite IH.
Qed.

(** ** Batch statistics *)

Module StatsFacts.
Import Stats.

Lemma size_suffix (tmp_str : string) (sz : option Z) :
  match sz with
  | Some b => tmp_str +:+ (" (" +:+ str b +:+ " bytes) ")
  | None => tmp_str
  end
  = tmp_str +:+ match sz with
                | Some b => " (" +:+ str b +:+ " bytes) "
                | None => ""
                end.
Proof. destruct sz; [reflexivity | now rewrite append_nil_r]. Qed.

(** The report is the concatenation, in the fixed order, of the lines
    of the reported categories. *)
Lemma format_output_lines (s : StatsInfo) :
  format_output s = fold_right String.append EmptyString (spec_report s).
Proof.
  destruct s as [f sz ft szt fc szc fd szd].
  unfold format_output, spec_report, spec_line, reported, categories.
  destruct f as [n|]; destruct ft as [nt|]; destruct fc as [nc|];
    destruct fd as [nd|];
    cbn [files size files_transferred size_transferred files_copied
         size_copied files_deleted size_deleted count_of size_of wording
         truthy_int negb List.filter map fold_right];
    repeat match goal with
           | |- context [?z =? 0] => destruct (z =? 0)
           end;
    cbn [negb map fold_right];
    rewrite ?size_suffix, ?append_nil_r, ?append_assoc; reflexivity.
Qed.

Lemma forget_unreported (s : StatsInfo) (c : category) :
  reported s c = false -> format_output s = format_output (forget c s).
Proof.
  destruct s as [f sz ft szt fc szc fd szd].
  destruct c; unfold reported, count_of, truthy_int; cbn; intros H.
  - destruct f; [discriminate | reflexivity].
  - destruct ft as [n|]; [|reflexivity].
    unfold format_output; cbn. destruct (n =? 0); [reflexivity|discriminate].
  - destruct fc as [n|]; [|reflexivity].
    unfold format_output; cbn. destruct (n =? 0); [reflexivity|discriminate].
  - destruct fd as [n|]; [|reflexivity].
    unfold format_output; cbn. destruct (n =? 0); [reflexivity|discriminate].
Qed.

(** C8: [format_output] emits, in the order total, transferred, copied,
    deleted, one line per reported category: the total when [files] is
    set (zero included), the others when their count is set and not
    zero.  A line is ["
Stats: Number of files<category>: <N>"]
    followed by [" (<size> bytes) "] when the size of the category is
    set.  With [files = 10] and [size = 2048] alone the report is
    ["
Stats: Number of files: 10 (2048 bytes) "]. *)
Theorem format_output_report :
  (forall s : StatsInfo,
      format_output s
      = fold_right String.append EmptyString
          (map (spec_line s) (List.filter (reported s) [Total; Transferred; Copied; Deleted])))
  /\ format_output
       {| files := Some 10; size := Some 2048;
          files_transferred := None; size_transferred := None;
          files_copied := None; size_copied := None;
          files_deleted := None; size_deleted := None |}
     = nl +:+ "Stats: Number of files: 10 (2048 bytes) ".
Proof.
  split; [intros s; apply format_output_lines | reflexivity].
Qed.

(** C10, as the code has it: when the count of the transferred, copied
    or deleted category is absent or zero, or the total count [files]
    is absent, the category has no line in the report and the report is
    the one of the same statistics without the category's size. *)
Theorem size_without_count_omitted (s : StatsInfo) (c : category) (b : Z) :
  size_of c s = Some b ->
  (count_of c s = None \/ (c <> Total /\ count_of c s = Some 0)) ->
  ~ In c (List.filter (reported s) categories)
  /\ format_output s
     = fold_right String.append EmptyString
         (map (spec_line s) (List.filter (reported s) categories))
  /\ format_output s = format_output (forget c s).
Proof.
  intros _ Hcount.
  assert (Hrep : reported s c = false).
  { destruct Hcount as [Hc | [Hne Hc]]; destruct c; cbn in *;
      try congruence; rewrite Hc; reflexivity. }
  split; [|split].
  - rewrite filter_In. intros [_ H]. congruence.
  - apply format_output_lines.
  - now apply forget_unreported.
Qed.

Lemma size_without_count_omitted_witness :
  let s := {| files := Some 3; size := Some 30;
              files_transferred := Some 0; size_transferred := Some 4096;
              files_copied := None; size_copied := None;
              files_deleted := None; size_deleted := None |} in
  ~ In Transferred (List.filter (reported s) categories)
  /\ format_output s
     = fold_right String.append EmptyString
         (map (spec_line s) (List.filter (reported s) categories))
  /\ format_output s = format_output (forget Transferred s).
Proof.
  intros s.
  apply (size_without_count_omitted s Transferred 4096).
  - reflexivity.
  - right. split; [discriminate | reflexivity].
Defined.

(** C10 as stated fails on the total: with [files = 0] the total line
    is emitted and shows the size. *)
Lemma size_with_zero_total_shown :
  let s := {| files := Some 0; size := Some 5;
              files_transferred := None; size_transferred := None;
              files_copied := None; size_copied := None;
              files_deleted := None; size_deleted := None |} in
  size_of Total s = Some 5 /\ count_of Total s = Some 0
  /\ format_output s = nl +:+ "Stats: Number of files: 0 (5 bytes) ".
Proof. cbv zeta. repeat split. Qed.

Lemma spec_line_shape (s : StatsInfo) (c : category) :
  exists rest, spec_line s c = nl +:+ "Stats: Number of files" +:+ rest.
Proof. eexists. unfold spec_line. reflexivity. Qed.

(** X14: the report is empty exactly when no category is reported
    ([files] absent and the three other counts absent or zero, whatever
    the sizes); any other report starts with a newline and
    ["Stats: Number of files"]. *)
Theorem empty_report_iff (s : StatsInfo) :
  (format_output s = EmptyString <-> forall c, reported s c = false)
  /\ (format_output s = EmptyString
      \/ exists rest, format_output s = nl +:+ "Stats: Number of files" +:+ rest).
Proof.
  assert (Hcases :
    ((forall c, reported s c = false) /\ format_output s = EmptyString)
    \/ ((exists c, reported s c = true)
        /\ exists rest,
             format_output s = nl +:+ "Stats: Number of files" +:+ rest)).
  { rewrite format_output_lines. unfold spec_report, categories.
    cbn [List.filter].
    destruct (reported s Total) eqn:E1.
    { right. split; [now exists Total|].
      cbn [map fold_right].
      destruct (spec_line_shape s Total) as [rest ->].
      eexists. rewrite !append_assoc. reflexivity. }
    destruct (reported s Transferred) eqn:E2.
    { right. split; [now exists Transferred|].
      cbn [map fold_right].
      destruct (spec_line_shape s Transferred) as [rest ->].
      eexists. rewrite !append_assoc. reflexivity. }
    destruct (reported s Copied) eqn:E3.
    { right. split; [now exists Copied|].
      cbn [map fold_right].
      destruct (spec_line_shape s Copied) as [rest ->].
      eexists. rewrite !append_assoc. reflexivity. }
    destruct (reported s Deleted) eqn:E4.
    { right. split; [now exists Deleted|].
      cbn [map fold_right].
      destruct (spec_line_shape s Deleted) as [rest ->].
      eexists. rewrite !append_assoc. reflexivity. }
    left. split; [|reflexivity]. intros []; assumption. }
  destruct Hcases as [[Hnone Hempty] | [[c Hc] [rest Hrest]]].
  - split; [|now left]. split; [intros _; exact Hnone | intros _; exact Hempty].
  - split; [|right; now exists rest]. split.
    + intros H. rewrite Hrest in H. discriminate H.
    + intros H. rewrite H in Hc. discriminate.
Qed.

Lemma empty_report_iff_witness :
  let s := {| files := None; size := Some 7;
              files_transferred := Some 0; size_transferred := Some 9;
              files_copied := None; size_copied := None;
              files_deleted := Some 0; size_deleted := None |} in
  format_output s = EmptyString.
Proof.
  intros s. apply (proj1 (empty_report_iff s)). intros []; reflexivity.
Defined.

End StatsFacts.

(** ** Trackers *)

Section TrackerFacts.

Context {host : Host}.

Lemma preserves_ret {A} P (a : A) : preserves P (ret a).
Proof. intros st H; exact H. Qed.

Lemma preserves_raise {A} P e : preserves P (@raise A e).
Proof. intros st H; exact H. Qed.

Lemma preserves_bind {A B} P (m : M A) (k : A -> M B) :
  preserves P m -> (forall a, preserves P (k a)) -> preserves P (bind m k).
Proof.
  intros Hm Hk st H. unfold bind. specialize (Hm st H).
  destruct (m st) as [[a|e] st']; cbn in *; [now apply Hk | exact Hm].
Qed.

Lemma preserves_get_self P : preserves P get_self.
Proof. intros st H; exact H. Qed.

Lemma preserves_get_world P : preserves P get_world.
Proof. intros st H; exact H. Qed.

Lemma preserves_setattr P f : ignores P f -> preserves P (setattr f).
Proof. intros Hf [o w] H. now apply Hf. Qed.

Lemma preserves_tick P : world_stable P -> preserves P (set_world tick).
Proof. intros [Ht _] [o w] H. now apply Ht. Qed.

Lemma preserves_emit P s : world_stable P -> preserves P (set_world (emit s)).
Proof. intros [_ He] [o w] H. now apply He. Qed.

Ltac preserve :=
  repeat first
    [ solve [auto]
    | apply preserves_ret
    | apply preserves_raise
    | apply preserves_get_self
    | apply preserves_get_world
    | apply preserves_tick; assumption
    | apply preserves_emit; assumption
    | apply preserves_setattr; solve [auto]
    | apply preserves_bind; [|intros ?]
    | match goal with
      | |- preserves _ (if ?b then _ else _) => destruct b
      | |- preserves _ (match ?x with _ => _ end) => destruct x
      end ].

Lemma preserves_stdout_write P args :
  world_stable P -> preserves P (stdout_write args).
Proof. intros HP. unfold stdout_write. preserve. Qed.

Lemma preserves_output_labels P : world_stable P -> preserves P output_labels.
Proof.
  intros HP. pose proof (fun args => preserves_stdout_write P args HP) as Hw.
  unfold output_labels, getitem, stdout_flush. preserve.
Qed.

Lemma preserves_time_time P : world_stable P -> preserves P time_time.
Proof. intros HP. unfold time_time. preserve. Qed.

Lemma preserves_datetime_now P : world_stable P -> preserves P datetime_now.
Proof. intros HP. unfold datetime_now. preserve. Qed.

Lemma preserves_display_needed P :
  world_stable P -> (forall v, ignores P (set__last_display v)) ->
  preserves P _display_needed.
Proof.
  intros HP Hd. pose proof (preserves_time_time P HP) as Ht.
  unfold _display_needed, getattr__last_display. preserve.
Qed.

Lemma preserves_display P nf dm :
  world_stable P -> (forall v, ignores P (set_last_milestone v)) ->
  preserves P _display_needed ->
  preserves P (display nf dm).
Proof.
  intros HP Hm Hd.
  pose proof (preserves_output_labels P HP) as Hl.
  pose proof (fun args => preserves_stdout_write P args HP) as Hw.
  unfold display, Progress_display, ProgressANSI_display,
    ProgressCR_display, suppressed, print_speed_of, percent_of,
    getattr_last_milestone, floordiv, truediv, stdout_flush.
  preserve.
Qed.

Lemma preserves_perform P c :
  world_stable P -> transfer_stable P ->
  (forall v, ignores P (set_last_milestone v)) ->
  preserves P _display_needed ->
  preserves P (perform c).
Proof.
  intros HP (Hl & Hts & Hi & Hc & Hs & Htl & Htc) Hm Hd.
  pose proof (fun nf dm => preserves_display P nf dm HP Hm Hd) as Hdisp.
  pose proof (preserves_datetime_now P HP) as Hnow.
  destruct c; unfold perform, new_file, update, done, sleep; preserve.
Qed.

Lemma preserves_run P cs :
  (forall c, preserves P (perform c)) ->
  forall st, P st -> P (run cs st).
Proof.
  intros Hc. induction cs as [|c cs IH]; intros st H; [exact H|].
  cbn. apply IH. now apply Hc.
Qed.

(** *** What [display] leaves alone *)

Lemma display_transfer nf dm st :
  transfer_of (fst (snd (display nf dm st))) = transfer_of (fst st).
Proof.
  apply (preserves_display (fun s => transfer_of (fst s) = transfer_of (fst st))).
  - split; intros; assumption.
  - intros v o w H. exact H.
  - apply preserves_display_needed.
    + split; intros; assumption.
    + intros v o w H. exact H.
  - reflexivity.
Qed.

(** The class attribute is never assigned. *)
Lemma perform_class_attribute c st :
  Progress__last_display (snd (snd (perform c st)))
  = Progress__last_display (snd st).
Proof.
  apply (preserves_perform
           (fun s => Progress__last_display (snd s)
                     = Progress__last_display (snd st))).
  - split; intros; assumption.
  - repeat split; intros v o w H; exact H.
  - intros v o w H; exact H.
  - apply preserves_display_needed.
    + split; intros; assumption.
    + intros v o w H. exact H.
  - reflexivity.
Qed.

(** *** [update] *)

(** [update] assigns its three attributes and then runs [display()]. *)
Lemma update_runs_display (position delta_position : Z) (self : Progress)
    (w : World) :
  update position delta_position (self, w)
  = display false None
      (set_current_position
         (updated_position position delta_position (current_position self))
         (set_time_current (wall_datetime (instant w))
            (set_time_last (time_current self) self)),
       tick w).
Proof.
  unfold update, updated_position.
  unfold bind at 1 2 3 4 5.
  unfold get_self, setattr, datetime_now, bind, get_world, set_world, ret.
  cbn [fst snd].
  destruct (position >? -1); [reflexivity|].
  destruct (delta_position >? -1); cbn [fst snd]; [reflexivity|].
  destruct self; reflexivity.
Qed.

(** C5: [update] moves [time_current] into [time_last], reads the clock
    into [time_current], stores the position (the absolute one when it
    is above -1, else the old one plus the delta when that is above -1,
    else the old one), and then always renders: its outcome is the one
    of [display()] on the tracker so prepared. *)
Theorem update_spec (position delta_position : Z) (self : Progress) (w : World) :
  let prepared :=
    set_current_position
      (updated_position position delta_position (current_position self))
      (set_time_current (wall_datetime (instant w))
         (set_time_last (time_current self) self)) in
  let self' := fst (snd (update position delta_position (self, w))) in
  time_last self' = time_current self
  /\ time_current self' = wall_datetime (instant w)
  /\ current_position self'
     = updated_position position delta_position (current_position self)
  /\ update position delta_position (self, w)
     = display false None (prepared, tick w).
Proof.
  intros prepared self'.
  pose proof (update_runs_display position delta_position self w) as Hrun.
  fold prepared in Hrun.
  subst self'. rewrite Hrun.
  pose proof (display_transfer false None (prepared, tick w)) as Hf.
  unfold transfer_of in Hf. cbn [fst] in Hf.
  injection Hf as _ _ _ _ Hpos _ Hlast Hcur.
  rewrite Hpos, Hlast, Hcur. subst prepared. cbn.
  repeat split; reflexivity.
Qed.
(** *** The guarded renderers: [ProgressANSI] and [ProgressCR] *)

Lemma Qgtb_zero_neq (x : Q) : Qgtb x 0 = true -> Qeq_bool x 0 = false.
Proof.
  unfold Qgtb. intros H. destruct (Qeq_bool x 0) eqn:E; [|reflexivity].
  apply Qeq_bool_eq in E.
  assert (Hle : Qle_bool x 0 = true).
  { apply Qle_bool_iff. rewrite E. apply Qle_refl. }
  rewrite Hle in H. discriminate.
Qed.

(** The percent of the status line never divides by zero. *)
Lemma percent_of_returns self st :
  percent_of self st = (Returned (shown_percent self), st).
Proof.
  unfold percent_of, shown_percent, floordiv.
  destruct (total_size self =? 0) eqn:E; [reflexivity|].
  unfold bind, ret; cbn.
  destruct (current_position self * 100 / total_size self =? 0) eqn:E';
    [|reflexivity].
  apply Z.eqb_eq in E'. now rewrite E'.
Qed.

(** Nor does the speed of the status line. *)
Lemma print_speed_of_returns self st :
  print_speed_of self (elapsed self) st = (Returned (shown_speed self), st).
Proof.
  unfold print_speed_of, shown_speed, truediv.
  destruct (Qgtb (elapsed self) 0) eqn:E; [|reflexivity].
  rewrite (Qgtb_zero_neq _ E). reflexivity.
Qed.

Lemma status_chunks_last_display v self :
  status_chunks (set__last_display v self) = status_chunks self.
Proof. destruct self as [[] ? ? ? ? ? ? ? ? ?]; reflexivity. Qed.

(** A render that carries a message is never throttled: it writes the
    status line and then the message. *)
Lemma display_with_message self w dm :
  klass self <> Plain -> truthy dm = true ->
  display false dm (self, w)
  = (Returned tt, (self, emits (status_chunks self ++ [done_suffix dm]) w)).
Proof.
  intros Hk Hdm. unfold display, status_chunks.
  unfold bind at 1. cbn [get_self fst].
  destruct (klass self) eqn:Ek; [congruence| |].
  - unfold ProgressANSI_display, suppressed. rewrite Hdm.
    cbn [orb negb]. unfold bind at 1. cbn [ret].
    unfold bind at 1. cbn [get_self fst].
    fold (elapsed self). unfold bind at 1.
    rewrite print_speed_of_returns.
    unfold stdout_write, stdout_flush, set_world, bind, ret; cbn [fst snd].
    rewrite percent_of_returns. cbn [fst snd]. reflexivity.
  - unfold ProgressCR_display, suppressed. rewrite Hdm.
    cbn [orb negb]. unfold bind at 1. cbn [ret].
    unfold bind at 1. cbn [get_self fst].
    fold (elapsed self). unfold bind at 1.
    rewrite print_speed_of_returns.
    unfold stdout_write, stdout_flush, set_world, bind, ret; cbn [fst snd].
    rewrite percent_of_returns. cbn [fst snd]. reflexivity.
Qed.

(** A render without a message consults the clock: it is written, and
    the instance remembers when, if more than a second has passed since
    [_last_display]; else nothing is written. *)
Lemma display_throttled self w dm :
  klass self <> Plain -> truthy dm = false ->
  display false dm (self, w)
  = if Qgtb (wall_time (instant w) - last_display_of self w) 1
    then (Returned tt,
          (set__last_display (wall_time (S (instant w))) self,
           emits (status_chunks self) (tick (tick w))))
    else (Returned tt, (self, tick w)).
Proof.
  intros Hk Hdm. unfold display.
  unfold bind at 1. cbn [get_self fst].
  rewrite <- (status_chunks_last_display (wall_time (S (instant w))) self).
  unfold status_chunks, last_display_of.
  change (klass (set__last_display (wall_time (S (instant w))) self))
    with (klass self).
  destruct (klass self) eqn:Ek; [congruence| |].
  - unfold ProgressANSI_display, suppressed. rewrite Hdm.
    cbn [orb negb]. unfold _display_needed, time_time, getattr__last_display.
    unfold bind at 1 2 3 4 5 6 7.
    unfold get_world, set_world, get_self, bind, ret; cbn [fst snd].
    destruct (Qgtb _ 1); cbn [fst snd negb setattr]; [|reflexivity].
    fold (elapsed (set__last_display (wall_time (S (instant w))) self)).
    rewrite print_speed_of_returns.
    unfold stdout_write, stdout_flush, set_world, bind, ret; cbn [fst snd].
    rewrite percent_of_returns. cbn [fst snd]. reflexivity.
  - unfold ProgressCR_display, suppressed. rewrite Hdm.
    cbn [orb negb]. unfold _display_needed, time_time, getattr__last_display.
    unfold bind at 1 2 3 4 5 6 7.
    unfold get_world, set_world, get_self, bind, ret; cbn [fst snd].
    destruct (Qgtb _ 1); cbn [fst snd negb setattr]; [|reflexivity].
    fold (elapsed (set__last_display (wall_time (S (instant w))) self)).
    rewrite print_speed_of_returns.
    unfold stdout_write, stdout_flush, set_world, bind, ret; cbn [fst snd].
    rewrite percent_of_returns. cbn [fst snd]. reflexivity.
Qed.

Lemma sys_stdout_emits chunks w :
  sys_stdout (emits chunks w) = sys_stdout w ++ chunks.
Proof.
  revert w. induction chunks as [|c chunks IH]; intros w; cbn.
  - now rewrite app_nil_r.
  - fold (emits chunks (emit c w)). rewrite IH. cbn.
    now rewrite <- app_assoc.
Qed.


(** With no time elapsed their status line shows a rate of 0. *)
Lemma shown_speed_zero_elapsed self :
  time_current self = time_start self -> shown_speed self = (0%Q, EmptyString).
Proof.
  intros H. unfold shown_speed, elapsed, datetime_sub.
  rewrite H, Z.sub_diag. reflexivity.
Qed.

(** *** The plain renderer: [Progress] *)

(** [Progress.display] never looks at the message it is given. *)
Lemma Progress_display_ignores_message nf dm :
  Progress_display nf dm = Progress_display nf None.
Proof. reflexivity. Qed.

(** Away from completion, the plain renderer moves the milestone and then
    fails on its two-argument [write]; below the milestone it is silent. *)
Lemma Progress_display_milestone self w dm m :
  klass self = Plain -> total_size self <> 0 ->
  current_position self <> total_size self ->
  last_milestone self = Some m ->
  display false dm (self, w)
  = if current_position self * 100 / total_size self >=? m
    then (Raised TypeError,
          (set_last_milestone
             (current_position self * 100 / total_size self / 5 * 5) self, w))
    else (Returned tt, (self, w)).
Proof.
  intros Hk Ht Hc Hm. unfold display. unfold bind at 1. cbn [get_self fst].
  rewrite Hk. unfold Progress_display. unfold bind at 1. cbn [get_self fst].
  apply Z.eqb_neq in Hc. rewrite Hc.
  unfold floordiv. apply Z.eqb_neq in Ht. rewrite Ht.
  unfold getattr_last_milestone, bind, ret, get_self; cbn [fst snd].
  rewrite Hm. cbn [fst snd].
  destruct (_ >=? m); reflexivity.
Qed.

(** At completion the plain renderer changes no attribute. *)
Lemma Progress_display_complete self w dm :
  klass self = Plain -> current_position self = total_size self ->
  fst (snd (display false dm (self, w))) = self.
Proof.
  intros Hk Hc. unfold display. unfold bind at 1. cbn [get_self fst].
  rewrite Hk. unfold Progress_display. unfold bind at 1. cbn [get_self fst].
  apply Z.eqb_eq in Hc. rewrite Hc. unfold truediv.
  destruct (Qeq_bool _ 0); reflexivity.
Qed.

(** With a total of 0 and a position other than 0, the plain renderer
    divides by zero. *)
Lemma Progress_display_zero_total self w dm :
  klass self = Plain -> total_size self = 0 -> current_position self <> 0 ->
  display false dm (self, w) = (Raised ZeroDivisionError, (self, w)).
Proof.
  intros Hk Ht Hc. unfold display. unfold bind at 1. cbn [get_self fst].
  rewrite Hk. unfold Progress_display. unfold bind at 1. cbn [get_self fst].
  rewrite Ht. apply Z.eqb_neq in Hc. rewrite Hc. reflexivity.
Qed.

(** At completion with no time elapsed, it divides by zero as well. *)
Lemma Progress_display_zero_elapsed self w dm :
  klass self = Plain -> current_position self = total_size self ->
  time_current self = time_start self ->
  display false dm (self, w) = (Raised ZeroDivisionError, (self, w)).
Proof.
  intros Hk Hc Ht. unfold display. unfold bind at 1. cbn [get_self fst].
  rewrite Hk. unfold Progress_display. unfold bind at 1. cbn [get_self fst].
  apply Z.eqb_eq in Hc. rewrite Hc. unfold datetime_sub.
  rewrite Ht, Z.sub_diag. reflexivity.
Qed.

(** *** [done] *)

(** C2, as the code has it: for a non-empty message, [done(message)] on
    a [ProgressANSI] or [ProgressCR] tracker returns, leaves the tracker
    as it is and writes the status line followed by two spaces, the
    message verbatim and a newline; on a plain [Progress] tracker the
    message is ignored: [done(message)] is [display()]. *)
Theorem done_message_appended (message : string) (self : Progress) (w : World) :
  message <> EmptyString ->
  match klass self with
  | Plain => done message (self, w) = display false None (self, w)
  | _ =>
      fst (done message (self, w)) = Returned tt
      /\ fst (snd (done message (self, w))) = self
      /\ sys_stdout (snd (snd (done message (self, w))))
         = sys_stdout w ++ status_chunks self ++ ["  " +:+ message +:+ nl]
  end.
Proof.
  intros Hne.
  assert (Hdm : truthy (Some message) = true) by (now destruct message).
  unfold done.
  destruct (klass self) eqn:Ek.
  - unfold display. unfold bind. cbn [get_self fst]. rewrite Ek. reflexivity.
  - rewrite display_with_message by (assumption || congruence).
    cbn [fst snd]. now rewrite sys_stdout_emits.
  - rewrite display_with_message by (assumption || congruence).
    cbn [fst snd]. now rewrite sys_stdout_emits.
Qed.

(** *** Milestones *)

(** A plain tracker that [__init__] built starts at position 0 with the
    milestone at 0. *)
Lemma Progress_init_plain lbls total w st0 :
  Progress_init Plain lbls total w = (Returned tt, st0) ->
  klass (fst st0) = Plain /\ total_size (fst st0) = total
  /\ current_position (fst st0) = 0 /\ last_milestone (fst st0) = Some 0.
Proof.
  unfold Progress_init, new_file, display, Progress_display, output_labels,
    getitem, stdout_write, stdout_flush, datetime_now.
  unfold bind, setattr, get_self, get_world, set_world, ret, raise, blank;
    cbn [fst snd klass labels set_labels set_total_size set_initial_position
         set_current_position set_time_start set_time_last set_time_current].
  repeat match goal with
         | |- context [match ?d !! ?k with _ => _ end] =>
             destruct (d !! k); cbn [fst snd]; try discriminate
         end.
  intros H. injection H as <-. cbn. repeat split; reflexivity.
Qed.

Lemma updated_position_nonneg position delta_position stored :
  0 <= stored -> 0 <= updated_position position delta_position stored.
Proof.
  intros H. unfold updated_position.
  destruct (Z.gtb_spec position (-1)); [lia|].
  destruct (Z.gtb_spec delta_position (-1)); lia.
Qed.

Lemma next_milestone total pos m :
  0 < total -> 0 <= pos <= total -> (5 | m) ->
  m <= pos * 100 / total ->
  let m' := pos * 100 / total / 5 * 5 in
  (5 | m') /\ 0 <= m' <= 100 /\ m <= m'.
Proof.
  intros Ht Hp [k Hk] Hm m'. subst m'.
  set (rel := pos * 100 / total) in *.
  assert (0 <= rel) by (apply Z.div_pos; lia).
  assert (rel <= 100) by (apply Z.div_le_upper_bound; lia).
  assert (0 <= rel / 5) by (apply Z.div_pos; lia).
  assert (5 * (rel / 5) <= rel) by (apply Z.mul_div_le; lia).
  assert (k <= rel / 5) by (apply Z.div_le_lower_bound; lia).
  split; [apply Z.divide_factor_r | lia].
Qed.

(** One [update] within the total keeps the milestone a multiple of 5 in
    0..100 and does not lower it. *)
Lemma update_milestone total position delta_position st :
  0 < total -> milestone_inv total st ->
  current_position (fst (after (CallUpdate position delta_position) st)) <= total ->
  milestone_inv total (after (CallUpdate position delta_position) st)
  /\ milestone_of st <= milestone_of (after (CallUpdate position delta_position) st).
Proof.
  intros Ht (Hk & Htot & Hpos & m & Hm & Hdiv & Hrange).
  destruct st as [self w]. cbn [fst] in *.
  unfold after, perform, milestone_of. cbn [fst snd].
  rewrite update_runs_display.
  set (pos := updated_position position delta_position (current_position self)) in *.
  set (prepared := set_current_position pos _) in *.
  assert (Hp : current_position (fst (snd (display false None (prepared, tick w))))
               = pos).
  { pose proof (display_transfer false None (prepared, tick w)) as Hf.
    unfold transfer_of in Hf. cbn [fst] in Hf.
    now injection Hf as _ _ _ _ Hf _ _ _. }
  assert (Hpos' : 0 <= pos) by now apply updated_position_nonneg.
  assert (Hk' : klass prepared = Plain) by exact Hk.
  assert (Htot' : total_size prepared = total) by exact Htot.
  assert (Hm' : last_milestone prepared = Some m) by exact Hm.
  assert (Hcur : current_position prepared = pos) by reflexivity.
  rewrite Hm. intros Hle. rewrite Hp in Hle. clear Hp. unfold milestone_inv.
  destruct (Z.eq_dec pos total) as [Heq | Hne].
  - rewrite Progress_display_complete by congruence.
    rewrite Hm'. split; [|lia].
    refine (conj Hk' (conj Htot' (conj _ _))); [change (0 <= pos); lia|].
    exists m. auto.
  - assert (Hnz : total_size prepared <> 0) by (rewrite Htot'; lia).
    assert (Hnc : current_position prepared <> total_size prepared)
      by congruence.
    rewrite (Progress_display_milestone prepared _ None m Hk' Hnz Hnc Hm').
    rewrite Hcur, Htot'.
    destruct (Z.geb_spec (pos * 100 / total) m) as [Hge | Hlt];
      cbn [fst snd].
    + pose proof (next_milestone total pos m Ht (conj Hpos' Hle) Hdiv Hge)
        as Hnext.
      cbv zeta in Hnext. destruct Hnext as (Hd' & Hr' & Hmono).
      split; [|exact Hmono].
      refine (conj Hk' (conj Htot' (conj _ _))); [change (0 <= pos); lia|].
      eexists. split; [reflexivity|]. split; [exact Hd' | exact Hr'].
    + rewrite Hm'. split; [|lia].
      refine (conj Hk' (conj Htot' (conj _ _))); [change (0 <= pos); lia|].
      exists m. auto.
Qed.

Lemma trace_milestones total args st :
  0 < total -> milestone_inv total st ->
  Forall (fun st' => current_position (fst st') <= total)
         (trace (updates args) st) ->
  Sorted Z.le (map milestone_of (st :: trace (updates args) st))
  /\ Forall (milestone_inv total) (st :: trace (updates args) st).
Proof.
  intros Ht. revert st.
  induction args as [|[position delta_position] args IH]; intros st Hinv Hall.
  - cbn. split; constructor; (exact Hinv || constructor).
  - cbn [updates map trace fst snd] in *. fold (updates args) in *.
    inversion Hall as [|? ? Hhd Htl]; subst.
    destruct (update_milestone total position delta_position st Ht Hinv Hhd)
      as [Hinv' Hle].
    destruct (IH _ Hinv' Htl) as [Hsorted Hforall].
    split.
    + constructor; [exact Hsorted|]. constructor. exact Hle.
    + constructor; assumption.
Qed.

(** C7, as the code has it: after [new_file] with a positive total, over
    any sequence of [update] calls whose stored position never exceeds
    the total (non-decreasing or not), [last_milestone] never decreases
    and is always a multiple of 5 between 0 and 100. *)
Theorem milestones_monotone (lbls : gmap string string) (total : Z)
    (w : World) (st0 : state) (args : list (Z * Z)) :
  0 < total ->
  Progress_init Plain lbls total w = (Returned tt, st0) ->
  Forall (fun st => current_position (fst st) <= total)
         (trace (updates args) st0) ->
  StronglySorted Z.le (map milestone_of (st0 :: trace (updates args) st0))
  /\ Forall (fun st => milestone_ok (fst st)) (st0 :: trace (updates args) st0).
Proof.
  intros Ht Hinit Hall.
  destruct (Progress_init_plain _ _ _ _ Hinit) as (Hk & Htot & Hpos & Hm).
  assert (Hinv : milestone_inv total st0).
  { refine (conj Hk (conj Htot (conj _ _))); [lia|].
    exists 0. split; [exact Hm|]. split; [apply Z.divide_0_r | lia]. }
  destruct (trace_milestones total args st0 Ht Hinv Hall) as [Hs Hf].
  split.
  - apply Sorted_StronglySorted; [|exact Hs].
    intros x y z. apply Z.le_trans.
  - eapply Forall_impl; [exact Hf|]. intros st H. apply H.
Qed.

(** *** Throttling *)

(** A tracker that [__init__] returned has no [_last_display] of its own,
    and building it left the class attribute alone. *)
Lemma Progress_init_returned k lbls total w st0 :
  Progress_init k lbls total w = (Returned tt, st0) ->
  fst st0 = fresh k lbls total (instant w)
  /\ instant (snd st0) = S (instant w)
  /\ Progress__last_display (snd st0) = Progress__last_display w.
Proof.
  unfold Progress_init, new_file, display, Progress_display,
    ProgressANSI_display, ProgressCR_display, output_labels,
    getitem, stdout_write, stdout_flush, datetime_now.
  unfold bind, setattr, get_self, get_world, set_world, ret, raise, blank;
    cbn [fst snd klass labels set_labels set_total_size set_initial_position
         set_current_position set_time_start set_time_last set_time_current].
  destruct k;
    repeat match goal with
           | |- context [match ?d !! ?key with _ => _ end] =>
               destruct (d !! key); cbn [fst snd]; try discriminate
           end;
    intros H; injection H as <-; cbn; repeat split; reflexivity.
Qed.

(** Whether a render without a message is written is decided by the
    clock and [_last_display] alone. *)
Lemma display_rendered self w dm :
  klass self <> Plain -> truthy dm = false ->
  rendered (self, w) (after (CallDisplay false dm) (self, w))
  = Qgtb (wall_time (instant w) - last_display_of self w) 1.
Proof.
  intros Hk Hdm. unfold after, perform, rendered, written.
  rewrite display_throttled by assumption.
  destruct (Qgtb _ 1); cbn [fst snd].
  - rewrite sys_stdout_emits. cbn [sys_stdout tick].
    rewrite drop_app_length. unfold status_chunks.
    destruct (klass self); [congruence | reflexivity | reflexivity].
  - cbn [sys_stdout tick]. now rewrite drop_all.
Qed.

Lemma display_stamps self w dm :
  klass self <> Plain -> truthy dm = false ->
  rendered (self, w) (after (CallDisplay false dm) (self, w)) = true ->
  stamped_since (instant w) (after (CallDisplay false dm) (self, w)).
Proof.
  intros Hk Hdm. rewrite display_rendered by assumption.
  unfold after, perform. rewrite display_throttled by assumption.
  intros ->. cbn [fst snd]. split.
  - clear. induction (status_chunks self) as [|c l IH] using rev_ind.
    + cbn. lia.
    + unfold emits in *. rewrite fold_left_app. cbn. exact IH.
  - exists (S (instant w)). split; [lia | reflexivity].
Qed.

Lemma stamped_since_stable n :
  world_stable (stamped_since n) /\ transfer_stable (stamped_since n)
  /\ (forall v, ignores (stamped_since n) (set_last_milestone v)).
Proof.
  unfold world_stable, transfer_stable, ignores, stamped_since.
  repeat split; intros; cbn in *; intuition lia.
Qed.

Lemma stamped_since_display_needed n :
  preserves (stamped_since n) _display_needed.
Proof.
  intros [self w] [Hn Hk].
  unfold _display_needed, time_time, getattr__last_display.
  unfold bind, get_world, set_world, get_self, setattr, ret; cbn [fst snd].
  cbn [fst snd] in Hn, Hk. unfold stamped_since.
  destruct (Qgtb _ 1); cbn [fst snd instant tick _last_display set__last_display];
    (split; [lia|]).
  - exists (S (instant w)). split; [lia | reflexivity].
  - exact Hk.
Qed.

Lemma stamped_since_run n cs st :
  stamped_since n st -> stamped_since n (run cs st).
Proof.
  destruct (stamped_since_stable n) as (Hw & Ht & Hm).
  apply preserves_run. intros c.
  apply preserves_perform; auto using stamped_since_display_needed.
Qed.

Lemma klass_run cs st : klass (fst (run cs st)) = klass (fst st).
Proof.
  apply (preserves_run (fun s => klass (fst s) = klass (fst st)));
    [|reflexivity].
  intros c. apply preserves_perform.
  - split; intros; assumption.
  - repeat split; intros v o w H; exact H.
  - intros v o w H; exact H.
  - apply preserves_display_needed.
    + split; intros; assumption.
    + intros v o w H. exact H.
Qed.

Lemma class_attribute_run cs st :
  Progress__last_display (snd (run cs st)) = Progress__last_display (snd st).
Proof.
  apply (preserves_run
           (fun s => Progress__last_display (snd s)
                     = Progress__last_display (snd st))); [|reflexivity].
  intros c s H. unfold after in *.
  now rewrite perform_class_attribute.
Qed.

Lemma Qgtb_spec (x y : Q) : Qgtb x y = true <-> (y < x)%Q.
Proof.
  unfold Qgtb. rewrite negb_true_iff. split.
  - intros H. apply Qnot_le_lt. intros Hle.
    apply Qle_bool_iff in Hle. congruence.
  - intros H. destruct (Qle_bool x y) eqn:E; [|reflexivity].
    apply Qle_bool_iff in E. lra.
Qed.

(** C4, as the code has it: on a [ProgressANSI] or [ProgressCR] tracker
    whose clock does not go back, after a render without a message that
    was written at time [t1], and whatever was called in between, a
    render at time [t2] is written only if it is a new-file announcement,
    or carries a non-empty message, or [t2 - t1 > 1]. *)
Theorem throttle_window (st : state) (dm1 : option string) (cs : list call)
    (nf : bool) (dm : option string) :
  (forall i j, (i <= j)%nat -> (wall_time i <= wall_time j)%Q) ->
  klass (fst st) <> Plain ->
  truthy dm1 = false ->
  let st1 := after (CallDisplay false dm1) st in
  let st2 := run cs st1 in
  let st3 := after (CallDisplay nf dm) st2 in
  rendered st st1 = true ->
  rendered st2 st3 = true ->
  nf = true \/ truthy dm = true
  \/ (1 < wall_time (instant (snd st2)) - wall_time (instant (snd st)))%Q.
Proof.
  intros Hmono Hk Hdm1 st1 st2 st3 Hr1 Hr2.
  destruct nf; [now left|]. destruct (truthy dm) eqn:Hdm; [now right; left|].
  right; right.
  destruct st as [self w].
  assert (Hs1 : stamped_since (instant w) st1)
    by now apply display_stamps.
  assert (Hs2 : stamped_since (instant w) st2)
    by now apply stamped_since_run.
  assert (Hk2 : klass (fst st2) <> Plain).
  { subst st2. rewrite klass_run. subst st1. unfold after.
    pose proof (display_transfer false dm1 (self, w)) as Hf.
    unfold transfer_of in Hf. injection Hf as Hf _ _ _ _ _ _ _.
    cbn [perform]. rewrite Hf. exact Hk. }
  subst st3. destruct st2 as [self2 w2]. cbn [fst snd] in *.
  rewrite display_rendered in Hr2 by assumption.
  apply Qgtb_spec in Hr2.
  destruct Hs2 as [Hn (k & Hnk & Hlast)]. cbn [fst snd] in *.
  unfold last_display_of in Hr2. rewrite Hlast in Hr2.
  specialize (Hmono _ _ Hnk). lra.
Qed.

(** C9, as the code has it: the throttle timestamp is an attribute of the
    instance, with the class attribute (never assigned, 0 from the start)
    as its default.  Whatever another tracker did before, a tracker of
    [ProgressANSI] or [ProgressCR] that has just been built has no
    timestamp of its own, and its render without a message is written
    exactly when the clock reads more than 1. *)
Theorem throttle_timestamp_per_instance (k : variant) (a : Progress)
    (w : World) (cs : list call) (lbls : gmap string string) (total : Z)
    (b : Progress) (wb : World) (dm : option string) :
  k <> Plain ->
  Progress__last_display w = 0%Q ->
  Progress_init k lbls total (snd (run cs (a, w))) = (Returned tt, (b, wb)) ->
  truthy dm = false ->
  Progress__last_display wb = 0%Q
  /\ _last_display b = None
  /\ (rendered (b, wb) (after (CallDisplay false dm) (b, wb)) = true
      <-> (1 < wall_time (instant wb))%Q).
Proof.
  intros Hk Hc Hinit Hdm.
  apply Progress_init_returned in Hinit. cbn [fst snd] in Hinit.
  destruct Hinit as (Hb & _ & Hcb).
  rewrite class_attribute_run in Hcb. cbn [snd] in Hcb. rewrite Hc in Hcb.
  assert (Hkb : klass b = k) by (now rewrite Hb).
  assert (Hlb : _last_display b = None) by (now rewrite Hb).
  split; [exact Hcb|]. split; [exact Hlb|].
  rewrite display_rendered by congruence.
  unfold last_display_of. rewrite Hlb, Hcb.
  rewrite Qgtb_spec. split; intros H; lra.
Qed.

(** ** Further properties of the trackers *)

(** *** [new_file] *)

(** [new_file] assigns the attributes of the transfer, reads the clock
    once and then runs [display(new_file = True)]. *)
Lemma new_file_runs_display lbls total self w :
  new_file lbls total (self, w)
  = display true None
      (restarted self lbls total (wall_datetime (instant w)), tick w).
Proof.
  unfold new_file.
  unfold bind at 1 2 3 4 5 6 7 8 9 10.
  unfold get_self, setattr, datetime_now, bind, get_world, set_world, ret.
  cbn [fst snd]. reflexivity.
Qed.

(** [output_labels] writes the labels line, or raises on the first
    missing key before anything is written. *)
Lemma output_labels_spec self w :
  output_labels (self, w)
  = match labels_line (labels self) with
    | Some line => (Returned tt, (self, emit line w))
    | None => (Raised KeyError, (self, w))
    end.
Proof.
  unfold output_labels, labels_line, getitem, stdout_write, stdout_flush.
  unfold bind, get_self, set_world, ret, raise; cbn [fst snd].
  destruct (labels self !! "action"); [|reflexivity].
  destruct (labels self !! "source"); [|reflexivity].
  destruct (labels self !! "destination"); [|reflexivity].
  destruct (labels self !! "extra"); reflexivity.
Qed.

(** X1: with the four label keys present, [new_file] returns, writes the
    labels line (and, for [ProgressANSI], the save-cursor sequence)
    whatever the clock says, reads the clock once, and leaves the tracker
    at position 0 with its three timestamps at that reading; the plain
    tracker's milestone is back at 0, while the throttle timestamp
    [_last_display] of the instance is kept from the previous transfer. *)
Theorem new_file_resets (lbls : gmap string string) (total : Z)
    (self : Progress) (w : World) (line : string) :
  labels_line lbls = Some line ->
  new_file lbls total (self, w)
  = (Returned tt,
     (renewed self lbls total (wall_datetime (instant w)),
      emits (announcement (klass self) line) (tick w))).
Proof.
  intros Hline. rewrite new_file_runs_display.
  unfold display. unfold bind at 1. unfold renewed, restarted.
  cbn [get_self fst klass].
  destruct (klass self);
    unfold Progress_display, ProgressANSI_display, ProgressCR_display;
    [unfold bind at 1 | unfold bind at 1 | ];
    rewrite output_labels_spec; cbn [labels]; rewrite Hline;
    reflexivity.
Qed.

(** X2: when one of the four label keys is missing, [new_file] raises
    [KeyError] after it has reset position and timestamps: nothing is
    written, and the milestone of a plain tracker is not reset. *)
Theorem new_file_missing_key (lbls : gmap string string) (total : Z)
    (self : Progress) (w : World) :
  labels_line lbls = None ->
  new_file lbls total (self, w)
  = (Raised KeyError,
     (restarted self lbls total (wall_datetime (instant w)), tick w)).
Proof.
  intros Hline. rewrite new_file_runs_display.
  unfold display. unfold bind at 1. unfold restarted.
  cbn [get_self fst klass].
  destruct (klass self);
    unfold Progress_display, ProgressANSI_display, ProgressCR_display;
    [unfold bind at 1 | unfold bind at 1 | ];
    rewrite output_labels_spec; cbn [labels]; rewrite Hline;
    reflexivity.
Qed.

(** *** What a render writes *)


Lemma written_emits self self' w w' chunks :
  sys_stdout w' = sys_stdout w ->
  written (self, w) (self', emits chunks w') = chunks.
Proof.
  intros H. unfold written. cbn [fst snd].
  rewrite sys_stdout_emits, H. apply drop_app_length.
Qed.


(** X4: what [ProgressANSI] and [ProgressCR] write outside a new-file
    announcement.  With a non-empty message: the status chunks (restore
    cursor, erase to end of line and status line, or carriage return and
    status line) and then the message.  Without one: the status chunks
    when the clock is more than a second past [_last_display], nothing
    otherwise. *)
Theorem guarded_render_output (self : Progress) (w : World)
    (dm : option string) :
  klass self <> Plain ->
  written (self, w) (snd (display false dm (self, w)))
  = if truthy dm then status_chunks self ++ [done_suffix dm]
    else if Qgtb (wall_time (instant w) - last_display_of self w) 1
         then status_chunks self
         else [].
Proof.
  intros Hk. destruct (truthy dm) eqn:Hdm.
  - rewrite display_with_message by assumption. cbn [snd].
    now apply written_emits.
  - rewrite display_throttled by assumption.
    destruct (Qgtb _ 1); cbn [snd].
    + now apply written_emits.
    + unfold written. cbn [fst snd sys_stdout tick]. apply drop_all.
Qed.


(** X6: [done] is not deduplicated and does not look at the clock: on a
    [ProgressANSI] or [ProgressCR] tracker, two calls in a row with a
    non-empty message write the status chunks and the message twice and
    leave the tracker, its throttle timestamp and the clock as they
    were. *)
Theorem done_twice (self : Progress) (w : World) (message : string) :
  klass self <> Plain -> message <> EmptyString ->
  let once := status_chunks self ++ ["  " +:+ message +:+ nl] in
  run [CallDone message; CallDone message] (self, w)
  = (self, emits (once ++ once) w).
Proof.
  intros Hk Hne once.
  assert (Hdm : truthy (Some message) = true) by (now destruct message).
  unfold run, after, perform, done. cbn [fold_left].
  rewrite display_with_message by assumption. cbn [snd].
  rewrite display_with_message by assumption. cbn [snd].
  subst once. unfold emits. rewrite (fold_left_app _ (_ ++ _) (_ ++ _)).
  reflexivity.
Qed.

(** X7: an empty message is no message: [done("")] is [display()] on
    every tracker, so it is throttled like an [update] tick and appends
    nothing to the status line. *)
Theorem done_empty_is_tick (st : state) :
  done EmptyString st = display false None st.
Proof.
  destruct st as [self w]. unfold done, display, bind.
  cbn [get_self fst].
  destruct (klass self); reflexivity.
Qed.


(** *** Sequences of calls *)

Lemma display_position nf dm st :
  current_position (fst (snd (display nf dm st))) = current_position (fst st).
Proof.
  pose proof (display_transfer nf dm st) as Hf.
  unfold transfer_of in Hf. now injection Hf as _ _ _ _ Hf _ _ _.
Qed.

Lemma display_klass nf dm st :
  klass (fst (snd (display nf dm st))) = klass (fst st).
Proof.
  pose proof (display_transfer nf dm st) as Hf.
  unfold transfer_of in Hf. now injection Hf as Hf _ _ _ _ _ _ _.
Qed.

Lemma run_cons c cs st : run (c :: cs) st = run cs (after c st).
Proof. reflexivity. Qed.

Lemma after_update position delta_position self w :
  after (CallUpdate position delta_position) (self, w)
  = snd (display false None
           (set_current_position
              (updated_position position delta_position (current_position self))
              (set_time_current (wall_datetime (instant w))
                 (set_time_last (time_current self) self)),
            tick w)).
Proof. unfold after. cbn [perform]. now rewrite update_runs_display. Qed.

(** X8: a burst of [update] calls is silent.  On a [ProgressANSI] or
    [ProgressCR] tracker that last rendered at time [s], as long as the
    clock stays within one second of [s], any number of [update] calls
    writes nothing and leaves the throttle timestamp alone; each call
    reads the clock twice (once for [time_current], once for the
    throttle). *)
Theorem updates_within_window_silent (st : state) (s : Q)
    (args : list (Z * Z)) :
  klass (fst st) <> Plain ->
  _last_display (fst st) = Some s ->
  (forall n, (instant (snd st) <= n < instant (snd st) + 2 * length args)%nat ->
             (wall_time n - s <= 1)%Q) ->
  sys_stdout (snd (run (updates args) st)) = sys_stdout (snd st)
  /\ _last_display (fst (run (updates args) st)) = Some s
  /\ instant (snd (run (updates args) st))
     = (instant (snd st) + 2 * length args)%nat.
Proof.
  revert st.
  induction args as [|[position delta_position] args IH];
    intros [self w] Hk Hs Hwin; cbn [fst snd] in *.
  - cbn. repeat split; try assumption. lia.
  - cbn [updates map fst snd]. fold (updates args).
    rewrite run_cons, after_update.
    set (prepared := set_current_position _ _).
    assert (Hk' : klass prepared <> Plain) by exact Hk.
    assert (Hs' : _last_display prepared = Some s) by exact Hs.
    rewrite display_throttled by (assumption || reflexivity).
    unfold last_display_of. rewrite Hs'. cbn [instant tick].
    assert (Hq : Qgtb (wall_time (S (instant w)) - s) 1 = false).
    { unfold Qgtb. apply negb_false_iff, Qle_bool_iff.
      apply Hwin. cbn [length]. lia. }
    rewrite Hq. cbn [snd].
    destruct (IH (prepared, tick (tick w))) as (Ho & Hl & Hi);
      cbn [fst snd instant tick]; try assumption.
    { intros n Hn. apply Hwin. cbn [length]. lia. }
    cbn [fst snd instant tick sys_stdout] in *.
    rewrite Ho, Hl, Hi. repeat split. cbn [length]. lia.
Qed.

(** X9: renders never touch the position.  Whatever the variant, and
    whether the renders return, are suppressed or raise, the position
    after a sequence of [update] calls is the one their arguments
    describe: an absolute position above -1 replaces it, else a delta
    above -1 is added, else it stays. *)
Theorem updates_final_position (st : state) (args : list (Z * Z)) :
  current_position (fst (run (updates args) st))
  = final_position args (current_position (fst st)).
Proof.
  revert st.
  induction args as [|[position delta_position] args IH]; intros [self w].
  - reflexivity.
  - cbn [updates map fst snd]. fold (updates args).
    rewrite run_cons, IH, after_update, display_position. reflexivity.
Qed.

(** X10: the position never becomes negative.  From a non-negative
    position, no sequence of [new_file], [update], [done] and [display]
    calls, with whatever arguments, leaves a negative one. *)
Theorem position_never_negative (st : state) (cs : list call) :
  0 <= current_position (fst st) ->
  0 <= current_position (fst (run cs st)).
Proof.
  apply (preserves_run (fun s => 0 <= current_position (fst s))).
  intros c [self w] H. cbn [fst] in H.
  destruct c as [lbls total|position delta_position|message|nf dm|];
    cbn [perform].
  - rewrite new_file_runs_display, display_position. cbn. lia.
  - rewrite update_runs_display, display_position. cbn [fst].
    change (0 <= updated_position position delta_position
                   (current_position self)).
    now apply updated_position_nonneg.
  - unfold done. now rewrite display_position.
  - now rewrite display_position.
  - exact H.
Qed.

(** X11: with a clock that does not go back, the timestamps of a tracker
    stay in order: from construction on, through any sequence of calls,
    [time_start <= time_last <= time_current], so the elapsed time is
    never negative. *)
Theorem timestamps_stay_ordered (k : variant) (lbls : gmap string string)
    (total : Z) (w : World) (cs : list call) :
  (forall i j, (i <= j)%nat -> wall_datetime i <= wall_datetime j) ->
  let st := run cs (snd (Progress_init k lbls total w)) in
  time_start (fst st) <= time_last (fst st) <= time_current (fst st).
Proof.
  intros Hmono st.
  assert (Hdisp : forall nf dm, preserves timestamps_ordered (display nf dm)).
  { intros nf dm. apply preserves_display.
    - split.
      + intros o w' (H1 & H2 & H3). repeat split; try assumption.
        cbn [fst snd instant tick] in *.
        pose proof (Hmono (instant w') (S (instant w')) ltac:(lia)). lia.
      + intros o w' s' H. exact H.
    - intros v o w' H. exact H.
    - apply preserves_display_needed.
      + split.
        * intros o w' (H1 & H2 & H3). repeat split; try assumption.
          cbn [fst snd instant tick] in *.
          pose proof (Hmono (instant w') (S (instant w')) ltac:(lia)). lia.
        * intros o w' s' H. exact H.
      + intros v o w' H. exact H. }
  assert (Hnew : forall lbls' total' st', timestamps_ordered
                   (snd (new_file lbls' total' st'))).
  { intros lbls' total' [self' w']. rewrite new_file_runs_display.
    apply Hdisp. unfold timestamps_ordered. cbn.
    pose proof (Hmono (instant w') (S (instant w')) ltac:(lia)). lia. }
  assert (Hall : timestamps_ordered st).
  { subst st. apply preserves_run; [|apply Hnew].
    intros c [self' w'] H.
    destruct c as [lbls' total'|position delta_position|message|nf dm|];
      cbn [perform].
    - apply Hnew.
    - rewrite update_runs_display. apply Hdisp.
      destruct H as (H1 & H2 & H3). unfold timestamps_ordered.
      cbn [fst snd instant tick time_start time_last time_current
           set_current_position set_time_current set_time_last] in *.
      pose proof (Hmono (instant w') (S (instant w')) ltac:(lia)). lia.
    - unfold done. now apply Hdisp.
    - now apply Hdisp.
    - destruct H as (H1 & H2 & H3). unfold sleep, set_world.
      unfold timestamps_ordered. cbn [fst snd instant tick] in *.
      pose proof (Hmono (instant w') (S (instant w')) ltac:(lia)). lia. }
  destruct Hall as (H1 & H2 & _). split; assumption.
Qed.

(** *** Elapsed time and percent *)


(** X13: for a position between 0 and a positive total, the percent of
    the status line is between 0 and 100, and it is 100 exactly at
    completion. *)
Theorem percent_within_bounds (self : Progress) (st : state) :
  0 < total_size self ->
  0 <= current_position self <= total_size self ->
  exists p, percent_of self st = (Returned p, st)
            /\ 0 <= p <= 100
            /\ (p = 100 <-> current_position self = total_size self).
Proof.
  intros Ht Hc. exists (shown_percent self).
  split; [apply percent_of_returns|].
  unfold shown_percent.
  destruct (Z.eqb_spec (total_size self) 0) as [E|_]; [lia|].
  set (t := total_size self) in *. set (c := current_position self) in *.
  pose proof (Z.div_mod (c * 100) t ltac:(lia)) as Hd.
  pose proof (Z.mod_pos_bound (c * 100) t Ht) as Hm.
  assert (0 <= c * 100 / t) by (apply Z.div_pos; lia).
  assert (c * 100 / t <= 100) by (apply Z.div_le_upper_bound; lia).
  split; [lia|]. split.
  - intros E. rewrite E in Hd. lia.
  - intros ->. rewrite Z.mul_comm. apply Z.div_mul. lia.
Qed.


(** X15: the plain renderer is not throttled.  Outside a new-file
    announcement it never reads the clock and never stores a throttle
    timestamp, returning or raising. *)
Theorem plain_ignores_throttle (self : Progress) (w : World)
    (dm : option string) :
  klass self = Plain ->
  instant (snd (snd (display false dm (self, w)))) = instant w
  /\ _last_display (fst (snd (display false dm (self, w)))) = _last_display self.
Proof.
  intros Hk.
  assert (H : exists res self' w',
             display false dm (self, w) = (res, (self', w'))
             /\ instant w' = instant w
             /\ _last_display self' = _last_display self).
  { unfold display. unfold bind at 1. cbn [get_self fst].
    rewrite Hk. unfold Progress_display. unfold bind at 1. cbn [get_self fst].
    destruct (current_position self =? total_size self).
    - unfold truediv. destruct (Qeq_bool _ 0);
        do 3 eexists; (split; [reflexivity|]); split; reflexivity.
    - unfold floordiv.
      destruct (total_size self =? 0);
        [do 3 eexists; (split; [reflexivity|]); split; reflexivity|].
      unfold getattr_last_milestone, bind, ret, get_self; cbn [fst snd].
      destruct (last_milestone self) as [m|];
        [|do 3 eexists; (split; [reflexivity|]); split; reflexivity].
      cbn [fst snd].
      destruct (_ >=? m);
        do 3 eexists; (split; [reflexivity|]); split; reflexivity. }
  destruct H as (res & self' & w' & -> & Hi & Hl). split; assumption.
Qed.



End TrackerFacts.

(** * Examples: the code on concrete inputs *)

Section Examples.

#[local] Existing Instance example_host.

Lemma example_clock_monotone (i j : nat) :
  (i <= j)%nat -> (wall_time i <= wall_time j)%Q.
Proof.
  intros H. cbn [wall_time example_host].
  assert (Hq : (inject_Z (Z.of_nat i) <= inject_Z (Z.of_nat j))%Q)
    by (rewrite <- Zle_Qle; lia).
  lra.
Qed.

(** C1: a plain tracker with [total_size = 0] and a position other than
    0 divides by zero when [update] renders (on every such state:
    [Progress_display_zero_total]), where [ProgressANSI] and [ProgressCR]
    report 0% ([guarded_display_returns], [percent_of_returns]). *)
Theorem plain_zero_total_raises :
  let st := snd (Progress_init Plain example_labels 0 initial_world) in
  total_size (fst st) = 0
  /\ fst (update 5 (-1) st) = Raised ZeroDivisionError.
Proof. split; reflexivity. Qed.

(** C3: on a plain tracker at 50 of 100 bytes with the milestone at 0,
    the render sets the milestone to 50 and then raises [TypeError] on
    [write("%d%% ", milestone)]; nothing is written. *)
Theorem plain_milestone_write_raises :
  let st := snd (Progress_init Plain example_labels 100 initial_world) in
  let res := update 50 (-1) st in
  last_milestone (fst st) = Some 0
  /\ fst res = Raised TypeError
  /\ last_milestone (fst (snd res)) = Some 50
  /\ sys_stdout (snd (snd res)) = sys_stdout (snd st).
Proof. repeat split; reflexivity. Qed.

(** C6: on a plain tracker that completes with no time elapsed since
    [new_file], the 100% line divides by zero (on every such state:
    [Progress_display_zero_elapsed]), where [ProgressANSI] and
    [ProgressCR] show a rate of 0 ([guarded_display_returns],
    [shown_speed_zero_elapsed]). *)
Theorem plain_zero_elapsed_raises :
  let st := snd (Progress_init (host := coarse_host) Plain example_labels
                   2048 initial_world) in
  let res := update (host := coarse_host) 2048 (-1) st in
  time_current (fst (snd res)) = time_start (fst (snd res))
  /\ current_position (fst (snd res)) = total_size (fst (snd res))
  /\ fst res = Raised ZeroDivisionError.
Proof. repeat split; reflexivity. Qed.

(** C2 as stated fails on the plain tracker: [done("failed")] right after
    [new_file] raises with nothing but the labels written, and at
    completion it writes the 100% line alone. *)
Lemma plain_done_drops_message :
  let st := snd (Progress_init Plain example_labels 100 initial_world) in
  let st' := after (CallUpdate 100 (-1)) st in
  (fst (done "failed" st) = Raised TypeError
   /\ sys_stdout (snd (snd (done "failed" st)))
      = ["upload: 'a.bin' -> 's3://bucket/a.bin'  [1 of 1]" +:+ nl])
  /\ (fst (done "failed" st') = Returned tt
      /\ written st' (snd (done "failed" st'))
         = ["100%  100 in 0s (400 B/s)" +:+ nl]).
Proof. repeat split; reflexivity. Qed.

Lemma done_message_appended_witness :
  let self := fresh ANSI example_labels 100 0 in
  fst (done "failed" (self, initial_world)) = Returned tt
  /\ fst (snd (done "failed" (self, initial_world))) = self
  /\ sys_stdout (snd (snd (done "failed" (self, initial_world))))
     = sys_stdout initial_world ++ status_chunks self ++ ["  failed" +:+ nl].
Proof.
  intros self.
  apply (done_message_appended "failed" self initial_world).
  discriminate.
Defined.

(** C4 as stated fails when the first of the two calls is a [done] or a
    new-file announcement: either is written without touching
    [_last_display], so the render a quarter of a second later is written
    too. *)
Lemma render_after_done_not_throttled :
  let st := snd (Progress_init ANSI example_labels 100 initial_world) in
  let t1 := wall_time (instant (snd st)) in
  let st1 := after (CallDone "ok") st in
  let st2 := run [Sleep] st1 in
  let st3 := after (CallDisplay false None) st2 in
  let t2 := wall_time (instant (snd st2)) in
  let st1' := after (CallDisplay true None) st in
  let st2' := run [Sleep] st1' in
  let st3' := after (CallDisplay false None) st2' in
  let t2' := wall_time (instant (snd st2')) in
  (rendered st st1 = true
   /\ (t1 < t2)%Q /\ (t2 - t1 <= 1)%Q
   /\ rendered st2 st3 = true)
  /\ (rendered st st1' = true
      /\ (t1 < t2')%Q /\ (t2' - t1 <= 1)%Q
      /\ rendered st2' st3' = true).
Proof. vm_compute. repeat split; discriminate. Qed.

Lemma throttle_window_witness :
  let st := snd (Progress_init CR example_labels 100 initial_world) in
  let st1 := after (CallDisplay false None) st in
  let st2 := run [Sleep; CallUpdate 10 (-1); Sleep; Sleep; Sleep] st1 in
  let st3 := after (CallDisplay false None) st2 in
  rendered st st1 = true /\ rendered st2 st3 = true
  /\ (false = true \/ truthy None = true
      \/ (1 < wall_time (instant (snd st2)) - wall_time (instant (snd st)))%Q).
Proof.
  intros st st1 st2 st3.
  assert (H1 : rendered st st1 = true) by (vm_compute; reflexivity).
  assert (H2 : rendered st2 st3 = true) by (vm_compute; reflexivity).
  split; [exact H1|]. split; [exact H2|].
  apply (throttle_window st None
           [Sleep; CallUpdate 10 (-1); Sleep; Sleep; Sleep] false None).
  - exact example_clock_monotone.
  - discriminate.
  - reflexivity.
  - exact H1.
  - exact H2.
Defined.

(** C7 as stated fails when the position runs past the total: the
    positions 0, 5, 30 of a transfer of 10 bytes are non-decreasing and
    leave the milestones 0, 50, 300. *)
Lemma milestone_exceeds_100 :
  let st0 := snd (Progress_init Plain example_labels 10 initial_world) in
  let states := st0 :: trace (updates [(5, -1); (30, -1)]) st0 in
  fst (Progress_init Plain example_labels 10 initial_world) = Returned tt
  /\ map (fun st => current_position (fst st)) states = [0; 5; 30]
  /\ map milestone_of states = [0; 50; 300].
Proof. repeat split; reflexivity. Qed.

Lemma milestones_monotone_witness :
  let st0 := snd (Progress_init Plain example_labels 100 initial_world) in
  let states := st0 :: trace (updates [(10, -1); (-1, 42); (-1, -1); (100, -1)]) st0 in
  StronglySorted Z.le (map milestone_of states)
  /\ Forall (fun st => milestone_ok (fst st)) states.
Proof.
  intros st0 states. subst states.
  apply (milestones_monotone example_labels 100 initial_world st0
           [(10, -1); (-1, 42); (-1, -1); (100, -1)]).
  - lia.
  - vm_compute. reflexivity.
  - vm_compute. repeat constructor; discriminate.
Defined.

(** C9 as stated fails: after tracker [a] has rendered, a render of [a]
    three quarters of a second later is suppressed, but the one of a
    tracker [b] built in between is written. *)
Lemma fresh_instance_not_throttled :
  let a0 := snd (Progress_init ANSI example_labels 100 initial_world) in
  let a1 := after (CallDisplay false None) a0 in
  let b0 := snd (Progress_init ANSI example_labels 200 (snd a1)) in
  let t := wall_time (instant (snd a0)) in
  let t' := wall_time (instant (snd b0)) in
  rendered a0 a1 = true
  /\ (t < t')%Q /\ (t' - t <= 1)%Q
  /\ rendered (fst a1, snd b0) (after (CallDisplay false None) (fst a1, snd b0))
     = false
  /\ rendered b0 (after (CallDisplay false None) b0) = true.
Proof. vm_compute. repeat split; discriminate. Qed.

Lemma throttle_timestamp_per_instance_witness :
  let a0 := snd (Progress_init ANSI example_labels 100 initial_world) in
  let w1 := snd (run [CallDisplay false None] (fst a0, snd a0)) in
  let b := fst (snd (Progress_init ANSI example_labels 200 w1)) in
  let wb := snd (snd (Progress_init ANSI example_labels 200 w1)) in
  Progress__last_display wb = 0%Q
  /\ _last_display b = None
  /\ (rendered (b, wb) (after (CallDisplay false None) (b, wb)) = true
      <-> (1 < wall_time (instant wb))%Q).
Proof.
  intros a0 w1 b wb.
  assert (Hinit : Progress_init ANSI example_labels 200 w1
                  = (Returned tt, (b, wb))) by (vm_compute; reflexivity).
  exact (throttle_timestamp_per_instance ANSI (fst a0) (snd a0)
           [CallDisplay false None] example_labels 200 b wb None
           ltac:(discriminate) eq_refl Hinit eq_refl).
Defined.

Lemma example_datetime_monotone (i j : nat) :
  (i <= j)%nat -> wall_datetime i <= wall_datetime j.
Proof. intros H. cbn [wall_datetime example_host]. lia. Qed.

Lemma new_file_resets_witness :
  let self := set__last_display 5 (fresh CR example_labels 50 0) in
  let line := "upload: 'a.bin' -> 's3://bucket/a.bin'  [1 of 1]" +:+ nl in
  new_file example_labels 100 (self, initial_world)
  = (Returned tt,
     (renewed self example_labels 100 (wall_datetime (instant initial_world)),
      emits (announcement (klass self) line) (tick initial_world))).
Proof.
  intros self line.
  exact (new_file_resets example_labels 100 self initial_world line eq_refl).
Defined.

Lemma new_file_missing_key_witness :
  let lbls : gmap string string := <["action" := "upload"]> ∅ in
  let self := fresh Plain example_labels 50 0 in
  new_file lbls 100 (self, initial_world)
  = (Raised KeyError,
     (restarted self lbls 100 (wall_datetime (instant initial_world)),
      tick initial_world)).
Proof.
  intros lbls self.
  exact (new_file_missing_key lbls 100 self initial_world eq_refl).
Defined.


Lemma guarded_render_output_witness :
  let self := fresh ANSI example_labels 100 0 in
  written (self, initial_world) (snd (display false None (self, initial_world)))
  = if truthy None then status_chunks self ++ [done_suffix None]
    else if Qgtb (wall_time (instant initial_world)
                  - last_display_of self initial_world) 1
         then status_chunks self
         else [].
Proof.
  intros self.
  exact (guarded_render_output self initial_world None ltac:(discriminate)).
Defined.


Lemma done_twice_witness :
  let self := fresh CR example_labels 100 0 in
  let once := status_chunks self ++ ["  " +:+ "failed" +:+ nl] in
  run [CallDone "failed"; CallDone "failed"] (self, initial_world)
  = (self, emits (once ++ once) initial_world).
Proof.
  intros self.
  exact (done_twice self initial_world "failed"
           ltac:(discriminate) ltac:(discriminate)).
Defined.

Lemma updates_within_window_silent_witness :
  let self := set__last_display (2001 # 2) (fresh CR example_labels 100 0) in
  let w := {| sys_stdout := []; instant := 3; Progress__last_display := 0 |} in
  let args := [(10, -1); (-1, 5)] in
  sys_stdout (snd (run (updates args) (self, w))) = sys_stdout w
  /\ _last_display (fst (run (updates args) (self, w))) = Some (2001 # 2)
  /\ instant (snd (run (updates args) (self, w))) = (instant w + 2 * 2)%nat.
Proof.
  intros self w args.
  assert (Hwin : forall n, (3 <= n < 3 + 2 * 2)%nat ->
                           (wall_time n - (2001 # 2) <= 1)%Q).
  { intros n Hn.
    assert (Hc : n = 3%nat \/ n = 4%nat \/ n = 5%nat \/ n = 6%nat) by lia.
    destruct Hc as [-> | [-> | [-> | ->]]]; vm_compute; discriminate. }
  exact (updates_within_window_silent (self, w) (2001 # 2) args
           ltac:(discriminate) eq_refl Hwin).
Defined.

Lemma position_never_negative_witness :
  let st := (fresh ANSI example_labels 100 0, initial_world) in
  0 <= current_position
         (fst (run [CallUpdate (-5) (-7); CallUpdate (-1) 3; CallDone "ok"] st)).
Proof.
  intros st.
  exact (position_never_negative st
           [CallUpdate (-5) (-7); CallUpdate (-1) 3; CallDone "ok"]
           ltac:(cbn; lia)).
Defined.

Lemma timestamps_stay_ordered_witness :
  let st := run [CallUpdate 10 (-1); Sleep; CallUpdate (-1) 5]
                (snd (Progress_init CR example_labels 100 initial_world)) in
  time_start (fst st) <= time_last (fst st) <= time_current (fst st).
Proof.
  exact (timestamps_stay_ordered CR example_labels 100 initial_world
           [CallUpdate 10 (-1); Sleep; CallUpdate (-1) 5]
           example_datetime_monotone).
Defined.

Lemma percent_within_bounds_witness :
  let self := set_current_position 50 (fresh ANSI example_labels 100 0) in
  exists p, percent_of self (self, initial_world)
            = (Returned p, (self, initial_world))
            /\ 0 <= p <= 100
            /\ (p = 100 <-> current_position self = total_size self).
Proof.
  intros self.
  exact (percent_within_bounds self (self, initial_world)
           ltac:(cbn; lia) ltac:(cbn; lia)).
Defined.

Lemma plain_ignores_throttle_witness :
  let self := set_current_position 50 (fresh Plain example_labels 100 0) in
  instant (snd (snd (display false None (self, initial_world))))
  = instant initial_world
  /\ _last_display (fst (snd (display false None (self, initial_world))))
     = _last_display self.
Proof.
  intros self.
  exact (plain_ignores_throttle self initial_world None eq_refl).
Defined.

End Examples.
